(** * Task execution lifecycle of the Claude Code executor service

    A shallow embedding of [config.py], [tools.py], [executor.py] and
    [main.py] of [helper-apps/cortex-claude-code-agent-sdk].

    - JSON values and Python dict literals are association lists.
    - A string is the sequence of the bytes of its UTF-8 encoding; a
      Python string that has no encoding (a lone surrogate) is not
      represented.
    - Python floats are IEEE 754 binary64 numbers with the operations of
      [SpecFloat].
    - [pathlib.Path] values are represented by their [parts]; the strings
      that come from outside (WORKSPACE_BASE, taskId) are parsed by
      [Path]; [str()] of a path followed by [Path()] is the identity on
      that representation and is not written out.
    - The file system is a tree of regular files, special files and
      directories, without symbolic links; only the calls and their engine
      change it.
    - Coroutines are functions on an explicit [world]; every [await] goes
      through [await], which is where a deadline armed by [wait_for]
      cancels the coroutine.  The collaborators (engine, file handler,
      faults of the operating system, the wall clock) answer through an
      oracle [env].
    - [print] calls are instrumentation and are left out. *)

From Stdlib Require Import ZArith Lia Ascii String.
From Stdlib Require Floats.SpecFloat.
From stdpp Require Import strings list pretty.

Set Warnings "-register-all".

Open Scope string_scope.
Open Scope list_scope.
Open Scope Z_scope.

(** ** JSON values and Python dicts *)

Inductive json :=
| JNull
| JBool (b : bool)
| JInt (z : Z)
| JStr (s : string)
| JList (l : list json)
| JDict (d : list (string * json)).

Definition dict := list (string * json).

(** [d.get(k)] for a dict literal with distinct keys *)
Fixpoint get (k : string) (d : dict) : option json :=
  match d with
  | [] => None
  | (k', v) :: d' => if String.eqb k k' then Some v else get k d'
  end.

(** a field is populated when its key is present with a value other than
    [None]/[null] *)
Definition populated (k : string) (d : dict) : bool :=
  match get k d with
  | Some JNull | None => false
  | Some _ => true
  end.

(** ** Exceptions *)

Inductive exn :=
| TimeoutError (msg : string)   (* asyncio.TimeoutError, a subclass of Exception *)
| CancelledError                (* asyncio.CancelledError, a BaseException only *)
| Exception (msg : string).     (* any other Exception; [msg] is str(e) *)

Definition is_Exception (e : exn) : bool :=
  match e with CancelledError => false | _ => true end.

Definition str_exn (e : exn) : string :=
  match e with
  | TimeoutError m | Exception m => m
  | CancelledError => ""
  end.

(** how a call ends: with a value or with an exception *)
Inductive outcome (A : Type) :=
| Ret (a : A)
| Raise (e : exn).
Arguments Ret {A} a.
Arguments Raise {A} e.

(** ** Floats *)

Definition float := SpecFloat.spec_float.

Definition fadd : float -> float -> float := SpecFloat.SFadd 53 1024.
Definition fmul : float -> float -> float := SpecFloat.SFmul 53 1024.
Definition fdiv : float -> float -> float := SpecFloat.SFdiv 53 1024.

(** [float(n)]: the nearest float, ties to even *)
Definition float_of_int (n : Z) : float :=
  SpecFloat.binary_normalize 53 1024 n 0 false.

(** an int as the dividend or divisor of a true division *)
Definition exact_int (n : Z) : float :=
  match n with
  | Z0 => SpecFloat.S754_zero false
  | Zpos p => SpecFloat.S754_finite false p 0
  | Zneg p => SpecFloat.S754_finite true p 0
  end.

(** [a / b] for two ints: the quotient of the integers, rounded once *)
Definition true_divide (a b : Z) : float := fdiv (exact_int a) (exact_int b).

(** [int(x)]: towards zero.  [int] raises OverflowError for an infinity
    and ValueError for a NaN; the floats below are built from the fields
    of a datetime or a timedelta and are finite, and 0 stands for the
    rest *)
Definition int_of_float (x : float) : Z :=
  match x with
  | SpecFloat.S754_finite s m e =>
      let a := match e with
               | Zneg p => Z.shiftr (Zpos m) (Zpos p)
               | _ => Z.shiftl (Zpos m) e
               end in
      if s then - a else a
  | _ => 0
  end.

(** [t.timestamp()] for a naive datetime [t] that lies [now_us]
    microseconds after the epoch: the whole seconds plus
    [t.microsecond / 1e6] *)
Definition timestamp (now_us : Z) : float :=
  fadd (float_of_int (now_us / 1000000))
       (fdiv (float_of_int (now_us mod 1000000)) (float_of_int 1000000)).

(** [d.total_seconds()] for a timedelta of [us] microseconds *)
Definition total_seconds (us : Z) : float := true_divide us 1000000.

(** ** Paths *)

Definition path := list string.

Definition startswith (s p : string) : bool := String.prefix p s.

(** the string holds a NUL byte *)
Fixpoint has_nul (s : string) : bool :=
  match s with
  | EmptyString => false
  | String c s' => Ascii.eqb c "000"%char || has_nul s'
  end.

Fixpoint split_on (sep : ascii) (s : string) : list string :=
  match s with
  | EmptyString => [EmptyString]
  | String c s' =>
      if Ascii.eqb c sep then EmptyString :: split_on sep s'
      else match split_on sep s' with
           | x :: xs => String c x :: xs
           | [] => [String c EmptyString]
           end
  end.

Definition is_component (c : string) : bool :=
  negb (String.eqb c "") && negb (String.eqb c ".").

(** the root of a POSIX path: exactly two leading slashes are kept *)
Definition root_of (s : string) : list string :=
  if startswith s "///" then ["/"]
  else if startswith s "//" then ["//"]
  else if startswith s "/" then ["/"]
  else [].

(** [Path(s).parts]: the root, then the components; empty components and
    "." are dropped, ".." is kept *)
Definition Path (s : string) : path :=
  root_of s ++ List.filter is_component (split_on "/"%char s).

Definition is_root (c : string) : bool :=
  String.eqb c "/" || String.eqb c "//".

Definition is_absolute (p : path) : bool :=
  match p with
  | r :: _ => is_root r
  | [] => false
  end.

(** [p / q] *)
Definition joinpath (p q : path) : path :=
  if is_absolute q then q else p ++ q.

(** [p.name] *)
Definition name (p : path) : string :=
  match List.rev p with
  | [] => ""
  | c :: _ => if is_root c then "" else c
  end.

(** the components below the root *)
Definition comps (p : path) : list string :=
  match p with
  | r :: cs => if is_root r then cs else p
  | [] => []
  end.

(** ".." steps to the parent; the parent of the root is the root *)
Fixpoint collapse (acc : list string) (cs : list string) : list string :=
  match cs with
  | [] => List.rev acc
  | c :: cs' =>
      if String.eqb c ".." then collapse (List.tl acc) cs'
      else collapse (c :: acc) cs'
  end.

(** ** File system *)

Inductive node :=
| File
| Special                                  (* fifo, socket, device *)
| Dir (entries : list (string * node)).

Definition is_file (n : node) : bool :=
  match n with File => true | _ => false end.

Definition is_dir (n : node) : bool :=
  match n with Dir _ => true | _ => false end.

Fixpoint find_entry (c : string) (es : list (string * node)) : option node :=
  match es with
  | [] => None
  | (c', n) :: es' => if String.eqb c c' then Some n else find_entry c es'
  end.

Fixpoint lookup_path (cs : list string) (t : node) : option node :=
  match cs with
  | [] => Some t
  | c :: cs' =>
      match t with
      | Dir es =>
          match find_entry c es with
          | Some n => lookup_path cs' n
          | None => None
          end
      | _ => None
      end
  end.

Definition exists_path (p : path) (t : node) : bool :=
  match lookup_path (comps p) t with Some _ => true | None => false end.

Definition without (c : string) (es : list (string * node)) : list (string * node) :=
  List.filter (fun e => negb (String.eqb c (fst e))) es.

Fixpoint update_entry (c : string) (f : node -> node) (es : list (string * node))
  : list (string * node) :=
  match es with
  | [] => []
  | (c', n) :: es' =>
      if String.eqb c c' then (c', f n) :: es' else (c', n) :: update_entry c f es'
  end.

(** removal of the subtree at [cs] (the effect of a successful rmtree) *)
Fixpoint remove_path (cs : list string) (t : node) : node :=
  match cs with
  | [] => t
  | [c] => match t with Dir es => Dir (without c es) | _ => t end
  | c :: cs' => match t with Dir es => Dir (update_entry c (remove_path cs') es) | _ => t end
  end.

(** creation of [cs] and its missing parents; [None] when a component
    exists and is not a directory *)
Fixpoint mkdir_p (cs : list string) (t : node) : option node :=
  match cs with
  | [] => if is_dir t then Some t else None
  | c :: cs' =>
      match t with
      | Dir es =>
          match find_entry c es with
          | Some n =>
              match mkdir_p cs' n with
              | Some n' => Some (Dir (update_entry c (fun _ => n') es))
              | None => None
              end
          | None =>
              match mkdir_p cs' (Dir []) with
              | Some n' => Some (Dir (es ++ [(c, n')]))
              | None => None
              end
          end
      | _ => None
      end
  end.

(** [p.rglob("*")] on the subtree [t] found at [p]: the entries of every
    directory below [p], directory by directory, parents first *)
Fixpoint rglob_from (p : path) (t : node) : list (path * node) :=
  match t with
  | Dir es =>
      List.map (fun e => (p ++ [fst e], snd e)) es
      ++ List.flat_map (fun e => rglob_from (p ++ [fst e]) (snd e)) es
  | _ => []
  end.

Definition rglob (p : path) (t : node) : list (path * node) :=
  match lookup_path (comps p) t with
  | Some n => rglob_from p n
  | None => []
  end.

(** ** tools.py *)

Definition non_artifact_names : list string := ["__pycache__"; ".pyc"; ".pyo"].

Definition hidden (p : path) : bool :=
  existsb (fun part => startswith part ".") p.

Definition keep_item (exclude_hidden : bool) (item : path * node) : bool :=
  if is_file (snd item) then
    if exclude_hidden && hidden (fst item) then false
    else if existsb (String.eqb (name (fst item))) non_artifact_names then false
    else true
  else false.

Definition list_workspace_files (t : node) (workspace : path) (exclude_hidden : bool)
  : list path :=
  List.map fst (List.filter (keep_item exclude_hidden) (rglob workspace t)).

Definition str_path (p : path) : string :=
  match p with
  | r :: cs => if is_root r then r +:+ String.concat "/" cs else String.concat "/" p
  | [] => "."
  end.

(** ** config.py *)

Record config := {
  ANTHROPIC_API_KEY : option string;
  FILE_HANDLER_URL : string;
  TASK_TIMEOUT_SECONDS : Z;
  MAX_TURNS : Z;
  WORKSPACE_BASE : string;
  MAX_CONCURRENT_TASKS : nat;   (* asyncio.Semaphore refuses a negative value *)
  PORT : Z
}.

(** the values taken when the environment sets none of the variables *)
Definition default_config : config := {|
  ANTHROPIC_API_KEY := None;
  FILE_HANDLER_URL := "http://localhost:3000";
  TASK_TIMEOUT_SECONDS := 300;
  MAX_TURNS := 50;
  WORKSPACE_BASE := "/tmp/claude-workspaces";
  MAX_CONCURRENT_TASKS := 5%nat;
  PORT := 8080
|}.

(** ** The process and its collaborators *)

Record world := {
  fs : node;                       (* the file system *)
  cwd : path;                      (* the working directory of the process *)
  unlinked : bool;                 (* that directory has been removed *)
  sem : nat;                       (* _semaphore._value *)
  ticks : nat;                     (* calls of datetime.now() so far *)
  time : Z;                        (* event-loop time, milliseconds *)
  deadline : option Z;             (* loop time at which wait_for cancels *)
  expired : bool;                  (* the timeout of wait_for has fired *)
  stored : list (path * string)    (* files taken by the file handler, with contextId *)
}.

Definition set_fs (t : node) (w : world) : world :=
  {| fs := t; cwd := cwd w; unlinked := unlinked w; sem := sem w; ticks := ticks w;
     time := time w; deadline := deadline w; expired := expired w; stored := stored w |}.
(** the process enters the directory [p] *)
Definition set_cwd (p : path) (w : world) : world :=
  {| fs := fs w; cwd := p; unlinked := false; sem := sem w; ticks := ticks w;
     time := time w; deadline := deadline w; expired := expired w; stored := stored w |}.
Definition set_unlinked (b : bool) (w : world) : world :=
  {| fs := fs w; cwd := cwd w; unlinked := b; sem := sem w; ticks := ticks w;
     time := time w; deadline := deadline w; expired := expired w; stored := stored w |}.
Definition set_sem (n : nat) (w : world) : world :=
  {| fs := fs w; cwd := cwd w; unlinked := unlinked w; sem := n; ticks := ticks w;
     time := time w; deadline := deadline w; expired := expired w; stored := stored w |}.
Definition set_ticks (n : nat) (w : world) : world :=
  {| fs := fs w; cwd := cwd w; unlinked := unlinked w; sem := sem w; ticks := n;
     time := time w; deadline := deadline w; expired := expired w; stored := stored w |}.
Definition set_time (t : Z) (x : bool) (w : world) : world :=
  {| fs := fs w; cwd := cwd w; unlinked := unlinked w; sem := sem w; ticks := ticks w;
     time := t; deadline := deadline w; expired := x; stored := stored w |}.
Definition set_deadline (d : option Z) (x : bool) (w : world) : world :=
  {| fs := fs w; cwd := cwd w; unlinked := unlinked w; sem := sem w; ticks := ticks w;
     time := time w; deadline := d; expired := x; stored := stored w |}.
Definition set_stored (l : list (path * string)) (w : world) : world :=
  {| fs := fs w; cwd := cwd w; unlinked := unlinked w; sem := sem w; ticks := ticks w;
     time := time w; deadline := deadline w; expired := expired w; stored := l |}.

(** content blocks of the engine's messages, by the attributes the
    consumer asks for: hasattr(block, 'text') and hasattr(block, 'name') *)
Record block := {
  block_text : option string;
  block_name : option string
}.

Inductive message :=
| NoContent                       (* no content attribute, or a falsy one *)
| Content (b : block)             (* a content that is not a list *)
| ContentList (bs : list block).

Record env := {
  clock : nat -> Z;                (* n-th reading of datetime.now(), microseconds *)
  mkdir_fault : option string;     (* workspace.mkdir raises OSError *)
  no_entry : path -> bool;         (* directories the process may not enter *)
  engine_time : Z;                 (* how long the engine's stream takes, ms *)
  engine_msgs : list message;      (* the messages of the stream *)
  engine_end : option exn;         (* the stream ends by raising *)
  engine_fs : node -> node;        (* what the engine does to the file system *)
  upload_time : path -> Z;         (* round trip of one upload, ms *)
  upload_reply : path -> outcome dict;  (* response.json(), or what the POST raises *)
  rmtree_fault : option string     (* shutil.rmtree raises OSError *)
}.

(** ** Coroutines: state and exceptions *)

Definition M (A : Type) : Type := world -> outcome A * world.

Definition ret {A} (a : A) : M A := fun w => (Ret a, w).
Definition raise {A} (e : exn) : M A := fun w => (Raise e, w).

Definition bind {A B} (m : M A) (k : A -> M B) : M B := fun w =>
  match m w with
  | (Ret a, w') => k a w'
  | (Raise e, w') => (Raise e, w')
  end.

Notation "x <- m ;; k" := (bind m (fun x => k))
  (at level 100, m at next level, right associativity).
Notation "m ;;; k" := (bind m (fun _ => k))
  (at level 100, right associativity).

(** [await]: the collaborator takes [d] milliseconds; a deadline that
    falls before its answer cancels the coroutine at this point *)
Definition await {A} (d : Z) (r : outcome A) : M A := fun w =>
  match deadline w with
  | Some D =>
      if D <? time w + d then (Raise CancelledError, set_time D true w)
      else (r, set_time (time w + d) (expired w) w)
  | None => (r, set_time (time w + d) (expired w) w)
  end.

(** [asyncio.wait_for(m, timeout)]; with a timeout that is not positive
    the coroutine is cancelled before it starts: nothing of [m] runs *)
Definition wait_for {A} (m : M A) (timeout : Z) : M A := fun w =>
  if timeout <=? 0 then (Raise (TimeoutError ""), w)
  else
    let '(r, w') := m (set_deadline (Some (time w + timeout * 1000)) false w) in
    let w'' := set_deadline (deadline w) (expired w) w' in
    match r with
    | Raise CancelledError =>
        if expired w' then (Raise (TimeoutError ""), w'') else (Raise CancelledError, w'')
    | _ => (r, w'')
    end.

(** [datetime.now()] *)
Definition now (e : env) : M Z := fun w =>
  (Ret (clock e (ticks w)), set_ticks (S (ticks w)) w).

(** [int((t1 - t0).total_seconds() * 1000)] for clock readings in
    microseconds *)
Definition duration_ms (t0 t1 : Z) : Z :=
  int_of_float (fmul (total_seconds (t1 - t0)) (float_of_int 1000)).

(** the directory the process is in has been removed, by [rmtree] or by
    the engine; a directory made later under the same name does not bring
    it back *)
Definition cwd_gone (w : world) : bool :=
  unlinked w || negb (exists_path (cwd w) (fs w)).

(** [os.getcwd()] *)
Definition getcwd : M path := fun w =>
  if cwd_gone w then (Raise (Exception "[Errno 2] No such file or directory"), w)
  else (Ret (cwd w), w).

(** [os.chdir(p)] *)
Definition chdir (e : env) (p : path) : M unit := fun w =>
  match lookup_path (comps p) (fs w) with
  | Some (Dir _) =>
      if no_entry e p then
        (Raise (Exception ("[Errno 13] Permission denied: '" +:+ str_path p +:+ "'")), w)
      else (Ret tt, set_cwd p w)
  | Some _ => (Raise (Exception ("[Errno 20] Not a directory: '" +:+ str_path p +:+ "'")), w)
  | None => (Raise (Exception ("[Errno 2] No such file or directory: '" +:+ str_path p +:+ "'")), w)
  end.

(** [p.resolve()] without symbolic links: ValueError for a NUL byte in
    a part of the path; else the path is made absolute against the
    working directory, ".." is collapsed and the root is "/" *)
Definition resolve (p : path) : M path :=
  if existsb has_nul p then raise (Exception "embedded null byte")
  else
    match p with
    | r :: cs =>
        if is_root r then ret ("/" :: collapse [] cs)
        else c <- getcwd ;; ret ("/" :: collapse [] (comps c ++ p))
    | [] => c <- getcwd ;; ret ("/" :: collapse [] (comps c))
    end.

(** [workspace.mkdir(parents=True, exist_ok=True)] *)
Definition mkdir (e : env) (p : path) : M unit := fun w =>
  match mkdir_fault e with
  | Some m => (Raise (Exception m), w)
  | None =>
      match mkdir_p (comps p) (fs w) with
      | Some t => (Ret tt, set_fs t w)
      | None => (Raise (Exception ("[Errno 17] File exists: '" +:+ str_path p +:+ "'")), w)
      end
  end.

(** [cs] leads to [ds] or to a directory above it *)
Fixpoint above (cs ds : list string) : bool :=
  match cs, ds with
  | [], _ => true
  | c :: cs', d :: ds' => String.eqb c d && above cs' ds'
  | _ :: _, [] => false
  end.

(** [shutil.rmtree(p)]; when it raises, the directory [p] itself is
    still there (it is removed last) and the tree is left as it was; the
    root directory cannot be removed.  The working directory of the
    process goes with the tree it is in. *)
Definition rmtree (e : env) (p : path) : M unit := fun w =>
  match rmtree_fault e with
  | Some m => (Raise (Exception m), w)
  | None =>
      match comps p with
      | [] =>
          (Raise (Exception "[Errno 16] Device or resource busy: '/'"),
           set_unlinked (match comps (cwd w) with [] => unlinked w | _ => true end)
             (set_fs (Dir []) w))
      | cs =>
          (Ret tt,
           set_unlinked (unlinked w || above cs (comps (cwd w)))
             (set_fs (remove_path cs (fs w)) w))
      end
  end.

(** ** executor.py *)

(** [upload_to_file_handler]: FileNotFoundError for a file that is gone,
    else the POST; [stored] records the files the handler answered for *)
Definition upload_to_file_handler (e : env) (filepath : path)
    (file_handler_url context_id : string) : M dict := fun w =>
  if exists_path filepath (fs w) then
    (d <- await (upload_time e filepath) (upload_reply e filepath) ;;
     fun w' => (Ret d, set_stored (stored w' ++ [(filepath, context_id)]) w')) w
  else (Raise (Exception ("File not found: " +:+ str_path filepath)), w).

(** the record appended for an uploaded file *)
Definition artifact (filepath : path) (result : dict) : json :=
  JDict [("filename", JStr (name filepath));
         ("url", match get "url" result with Some u => u | None => JStr "" end)].

(** the loop of [_upload_artifacts]: [except Exception] skips the file,
    a cancellation is not caught *)
Fixpoint upload_each (cfg : config) (e : env) (context_id : string)
    (files : list path) (artifacts : list json) : M (list json) :=
  match files with
  | [] => ret artifacts
  | filepath :: files' => fun w =>
      match upload_to_file_handler e filepath (FILE_HANDLER_URL cfg) context_id w with
      | (Ret result, w') =>
          upload_each cfg e context_id files' (artifacts ++ [artifact filepath result]) w'
      | (Raise x, w') =>
          if is_Exception x then upload_each cfg e context_id files' artifacts w'
          else (Raise x, w')
      end
  end.

Definition _upload_artifacts (cfg : config) (e : env) (workspace : path)
    (context_id : string) : M (list json) := fun w =>
  if negb (exists_path workspace (fs w)) then (Ret [], w)
  else upload_each cfg e context_id (list_workspace_files (fs w) workspace true) [] w.

(** one content block: a text replaces the response; a tool use is only
    printed *)
Definition see_block (final_response : string) (b : block) : string :=
  match block_text b with
  | Some t => t
  | None => final_response
  end.

Definition blocks_of (m : message) : list block :=
  match m with
  | NoContent => []
  | Content b => [b]
  | ContentList bs => bs
  end.

Definition see_message (final_response : string) (m : message) : string :=
  fold_left see_block (blocks_of m) final_response.

(** the [async for] of [_run_claude] over a finished stream *)
Definition consume (msgs : list message) : string :=
  fold_left see_message msgs "".

(** [_run_claude]: the options (system prompt, allowed tools,
    cwd=str(workspace), MAX_TURNS, buffer size) go to the engine, whose
    answer is the oracle's; what the engine wrote is there when the call
    goes on, also when the stream raised or was cancelled *)
Definition _run_claude (cfg : config) (e : env) (task_content : string)
    (workspace : path) : M string :=
  (fun w => (Ret tt, set_fs (engine_fs e (fs w)) w)) ;;;
  await (engine_time e)
        (match engine_end e with
         | Some x => Raise x
         | None => Ret (consume (engine_msgs e))
         end).

(** [int(t.timestamp() * 1000)] for a clock reading in microseconds *)
Definition timestamp_ms (now_us : Z) : Z :=
  int_of_float (fmul (timestamp now_us) (float_of_int 1000)).

(** [f"cc-{int(datetime.now().timestamp() * 1000)}"] *)
Definition gen_task_id (now_us : Z) : string :=
  "cc-" +:+ pretty (timestamp_ms now_us).

(** [task_id or f"cc-..."] *)
Definition task_id_or_new (e : env) (task_id : option string) : M string :=
  match task_id with
  | Some s => if String.eqb s "" then t <- now e ;; ret (gen_task_id t) else ret s
  | None => t <- now e ;; ret (gen_task_id t)
  end.

(** the head of the [try] block; the second component is the local
    [original_cwd], unbound as long as nothing was assigned to it *)
Definition setup_workspace (e : env) (workspace : path)
  : world -> outcome unit * option path * world := fun w =>
  match mkdir e workspace w with
  | (Raise x, w1) => (Raise x, None, w1)
  | (Ret _, w1) =>
      match getcwd w1 with
      | (Raise x, w2) => (Raise x, None, w2)
      | (Ret original_cwd, w2) =>
          match chdir e workspace w2 with
          | (Raise x, w3) => (Raise x, Some original_cwd, w3)
          | (Ret _, w3) => (Ret tt, Some original_cwd, w3)
          end
      end
  end.

(** the rest of the [try] block *)
Definition run_and_collect (cfg : config) (e : env) (task_content context_id : string)
    (workspace : path) (start_time : Z) : M dict :=
  result_text <- _run_claude cfg e task_content workspace ;;
  artifacts <- _upload_artifacts cfg e workspace context_id ;;
  t <- now e ;;
  ret [("success", JBool true);
       ("result", JStr result_text);
       ("artifacts", JList artifacts);
       ("duration_ms", JInt (duration_ms start_time t))].

(** the two [except] clauses *)
Definition handle_errors (e : env) (start_time : Z) (r : outcome dict) : M dict :=
  match r with
  | Raise (TimeoutError _) =>
      t <- now e ;;
      ret [("success", JBool false);
           ("result", JNull);
           ("error", JStr "Task timed out");
           ("duration_ms", JInt (duration_ms start_time t))]
  | Raise (Exception m) =>
      t <- now e ;;
      ret [("success", JBool false);
           ("result", JNull);
           ("error", JStr m);
           ("duration_ms", JInt (duration_ms start_time t))]
  | _ => fun w => (r, w)
  end.

(** [try: f except: pass] *)
Definition swallow (m : M unit) : world -> world := fun w => snd (m w).

(** the [finally] block; with [original_cwd] unbound the first [try]
    raises NameError, which is swallowed like the rest *)
Definition cleanup (e : env) (original_cwd : option path) (workspace : path)
  : world -> world := fun w =>
  let w1 := match original_cwd with
            | Some p => swallow (chdir e p) w
            | None => w
            end in
  swallow (fun w' => if exists_path workspace (fs w') then rmtree e workspace w'
                     else (Ret tt, w')) w1.

(** the workspace of a call: lines 26 and 27 *)
Definition locate (cfg : config) (e : env) (task_id : option string) : M path :=
  task_id <- task_id_or_new e task_id ;;
  resolve (joinpath (Path (WORKSPACE_BASE cfg)) (Path task_id)).

(** the [try] statement from the engine's stream on: the rest of the
    block when the head went through, the handlers, the [finally] block *)
Definition resume (cfg : config) (e : env) (task_content context_id : string)
    (workspace : path) (start_time : Z) (r0 : outcome unit) (original_cwd : option path)
  : M dict := fun w1 =>
  let '(r1, w2) :=
    match r0 with
    | Ret _ => run_and_collect cfg e task_content context_id workspace start_time w1
    | Raise x => (Raise x, w1)
    end in
  let '(r2, w3) := handle_errors e start_time r1 w2 in
  (r2, cleanup e original_cwd workspace w3).

(** the [try] statement with its handlers and its [finally] *)
Definition try_statement (cfg : config) (e : env) (task_content context_id : string)
    (workspace : path) (start_time : Z) : M dict := fun w =>
  let '(r0, original_cwd, w1) := setup_workspace e workspace w in
  resume cfg e task_content context_id workspace start_time r0 original_cwd w1.

Definition execute_task (cfg : config) (e : env) (task_content context_id : string)
    (task_id : option string) : M dict :=
  workspace <- locate cfg e task_id ;;
  start_time <- now e ;;
  try_statement cfg e task_content context_id workspace start_time.

(** ** main.py *)

Record fields := {
  task : option string;
  contextId : option string;
  taskId : option string
}.

(** a request: its body as [request.json()] gives it, [None] when the
    body is not JSON *)
Record request := { body : option fields }.

Record response := { payload : dict; status : Z }.

Definition json_response (d : dict) (s : Z) : response :=
  {| payload := d; status := s |}.

(** [not s] for an optional string *)
Definition falsy (s : option string) : bool :=
  match s with
  | Some x => String.eqb x ""
  | None => true
  end.

(** the string behind a field that was found truthy *)
Definition text_of (s : option string) : string :=
  match s with
  | Some x => x
  | None => ""
  end.

Definition acquire (w : world) : option world :=
  match sem w with
  | O => None
  | S n => Some (set_sem n w)
  end.

Definition release (w : world) : world := set_sem (S (sem w)) w.

(** [async with _semaphore: m]; [None] when no slot is free and the
    caller stays suspended in [acquire] *)
Definition async_with_semaphore {A} (m : M A) : world -> option (outcome A * world) :=
  fun w =>
    match acquire w with
    | None => None
    | Some w1 => let '(r, w2) := m w1 in Some (r, release w2)
    end.

(** the [try] statement under the semaphore *)
Definition serve (cfg : config) (e : env) (task context_id : string)
    (task_id : option string) : M response := fun w =>
  match wait_for (execute_task cfg e task context_id task_id) (TASK_TIMEOUT_SECONDS cfg) w with
  | (Ret result, w') => (Ret (json_response result 200), w')
  | (Raise (TimeoutError _), w') =>
      (Ret (json_response
              [("success", JBool false);
               ("error", JStr ("Task timed out after "
                               +:+ pretty (TASK_TIMEOUT_SECONDS cfg) +:+ "s"))] 200), w')
  | (Raise (Exception m), w') =>
      (Ret (json_response [("success", JBool false); ("error", JStr m)] 500), w')
  | (Raise CancelledError, w') => (Raise CancelledError, w')
  end.

Definition handle_execute (cfg : config) (e : env) (req : request)
  : world -> option (outcome response * world) := fun w =>
  match body req with
  | None =>
      Some (Ret (json_response
                   [("success", JBool false); ("error", JStr "Invalid JSON body")] 400), w)
  | Some data =>
      if falsy (task data) then
        Some (Ret (json_response
                     [("success", JBool false); ("error", JStr "Missing 'task' field")] 400), w)
      else if falsy (contextId data) then
        Some (Ret (json_response
                     [("success", JBool false); ("error", JStr "Missing 'contextId' field")] 400), w)
      else
        async_with_semaphore
          (serve cfg e (text_of (task data)) (text_of (contextId data)) (taskId data)) w
  end.

(** [GET /health] *)
Definition handle_health : response := json_response [("status", JStr "ok")] 200.

(** ** Admission: the handlers that share the semaphore

    The handlers run on one event loop.  A handler is the coroutine of
    [handle_execute] for its request, cut where the event loop can run
    another handler: before the block under the semaphore, inside it and
    at its end. *)

Inductive coroutine :=
| Return (r : outcome response)            (* the handler has ended *)
| Acquire (k : coroutine)                  (* await _semaphore.acquire() *)
| Block (m : M response) (k : outcome response -> coroutine)
                                           (* the body of the block *)
| Release (k : coroutine).                 (* _semaphore.release() *)

(** [async with _semaphore: m]: the slot is given back on every way out
    of [m] *)
Definition with_semaphore (m : M response) : coroutine :=
  Acquire (Block m (fun r => Release (Return r))).

(** [handle_execute] as a coroutine *)
Definition handler_of (cfg : config) (e : env) (req : request) : coroutine :=
  match body req with
  | None =>
      Return (Ret (json_response
                     [("success", JBool false); ("error", JStr "Invalid JSON body")] 400))
  | Some data =>
      if falsy (task data) then
        Return (Ret (json_response
                       [("success", JBool false); ("error", JStr "Missing 'task' field")] 400))
      else if falsy (contextId data) then
        Return (Ret (json_response
                       [("success", JBool false);
                        ("error", JStr "Missing 'contextId' field")] 400))
      else
        with_semaphore
          (serve cfg e (text_of (task data)) (text_of (contextId data)) (taskId data))
  end.

(** a coroutine that runs without company; [None] when it stays
    suspended in [acquire] *)
Fixpoint run_alone (c : coroutine) (w : world) : option (outcome response * world) :=
  match c with
  | Return r => Some (r, w)
  | Acquire k =>
      match acquire w with
      | Some w' => run_alone k w'
      | None => None
      end
  | Block m k => let '(r, w') := m w in run_alone (k r) w'
  | Release k => run_alone k (release w)
  end.

(** a request: what is left of its handler, and how often the handler
    has taken and given back a slot *)
Record handler := { code : coroutine; acquired : nat; released : nat }.

(** the handlers in the order in which they reached the semaphore *)
Record server := {
  pool : world;
  handlers : list handler
}.

(** suspended in [acquire] *)
Definition waiting (h : handler) : bool :=
  match code h with Acquire _ => true | _ => false end.

(** inside the block: a slot taken and not given back *)
Definition is_running (h : handler) : bool := (released h <? acquired h)%nat.

Definition running (s : server) : nat :=
  length (List.filter is_running (handlers s)).

Definition boot (cfg : config) (w : world) : server :=
  {| pool := set_sem (MAX_CONCURRENT_TASKS cfg) w; handlers := [] |}.

(** what one handler does between two suspensions.  The semaphore wakes
    its waiters in the order in which they came, and a newcomer does not
    pass them; [sem] counts the slots that no handler inside the block
    holds, those handed to a waiter that has not resumed included. *)
Inductive step (cfg : config) : server -> server -> Prop :=
| step_arrive s e req :
    step cfg s
      {| pool := pool s;
         handlers := handlers s
                     ++ [{| code := handler_of cfg e req; acquired := 0; released := 0 |}] |}
| step_acquire s i h k w' :
    handlers s !! i = Some h ->
    code h = Acquire k ->
    (forall j h', (j < i)%nat -> handlers s !! j = Some h' -> waiting h' = false) ->
    acquire (pool s) = Some w' ->
    step cfg s
      {| pool := w';
         handlers := <[i := {| code := k; acquired := S (acquired h);
                               released := released h |}]> (handlers s) |}
| step_block s i h m k r w' :
    handlers s !! i = Some h ->
    code h = Block m k ->
    m (pool s) = (r, w') ->
    step cfg s
      {| pool := w';
         handlers := <[i := {| code := k r; acquired := acquired h;
                               released := released h |}]> (handlers s) |}
| step_release s i h k :
    handlers s !! i = Some h ->
    code h = Release k ->
    step cfg s
      {| pool := release (pool s);
         handlers := <[i := {| code := k; acquired := acquired h;
                               released := S (released h) |}]> (handlers s) |}.

Inductive reachable (cfg : config) : server -> Prop :=
| reach_boot w : reachable cfg (boot cfg w)
| reach_step s s' : reachable cfg s -> step cfg s s' -> reachable cfg s'.

(** any number of steps *)
Inductive steps (cfg : config) : server -> server -> Prop :=
| steps_none s : steps cfg s s
| steps_more s s1 s' : step cfg s s1 -> steps cfg s1 s' -> steps cfg s s'.

(** a server with one handler *)
Definition alone (w : world) (c : coroutine) (a b : nat) : server :=
  {| pool := w; handlers := [{| code := c; acquired := a; released := b |}] |}.

(** ** Vocabulary of the statements *)

(** [w'] differs from [w] in the file system and the working directory
    at most *)
Definition same_loop (w w' : world) : Prop :=
  sem w' = sem w /\ ticks w' = ticks w /\ time w' = time w
  /\ deadline w' = deadline w /\ expired w' = expired w /\ stored w' = stored w.

(** the two shapes of the dict that [execute_task] returns *)
Definition success_envelope (result_text : string) (artifacts : list json) (d : Z) : dict :=
  [("success", JBool true);
   ("result", JStr result_text);
   ("artifacts", JList artifacts);
   ("duration_ms", JInt d)].

Definition failure_envelope (msg : string) (d : Z) : dict :=
  [("success", JBool false);
   ("result", JNull);
   ("error", JStr msg);
   ("duration_ms", JInt d)].

(** the texts of a stream, in the order of the stream *)
Definition texts (msgs : list message) : list string :=
  List.flat_map (fun m => omap block_text (blocks_of m)) msgs.

(** the file handler's answer for a file that is there and that it takes *)
Definition accepted (e : env) (t : node) (f : path) : option dict :=
  if exists_path f t then
    match upload_reply e f with
    | Ret d => Some d
    | Raise _ => None
    end
  else None.

Definition collected (e : env) (t : node) (files : list path) : list json :=
  omap (fun f => artifact f <$> accepted e t f) files.

Definition handed_over (e : env) (context_id : string) (t : node) (files : list path)
  : list (path * string) :=
  omap (fun f => (fun _ => (f, context_id)) <$> accepted e t f) files.

(** the time the uploads of [files] take, one after the other *)
Definition span (e : env) (t : node) (files : list path) : Z :=
  fold_right (fun f acc => (if exists_path f t then upload_time e f else 0) + acc) 0 files.

(** a deadline, if one is armed, leaves [d] more milliseconds *)
Definition in_time (w : world) (d : Z) : Prop :=
  forall D, deadline w = Some D -> time w + d <= D.

(** the same collaborators, with another fate for rmtree *)
Definition with_rmtree_fault (f : option string) (e : env) : env :=
  {| clock := clock e; mkdir_fault := mkdir_fault e; no_entry := no_entry e;
     engine_time := engine_time e;
     engine_msgs := engine_msgs e; engine_end := engine_end e; engine_fs := engine_fs e;
     upload_time := upload_time e; upload_reply := upload_reply e; rmtree_fault := f |}.

(** the world as [wait_for] hands it to [execute_task] *)
Definition armed (cfg : config) (w : world) : world :=
  set_deadline (Some (time w + TASK_TIMEOUT_SECONDS cfg * 1000)) false w.

(** the request is admitted and the timer of [wait_for] fires while
    [execute_task] is suspended in an [await] *)
Definition timer_fired (cfg : config) (e : env) (task context_id : string)
    (task_id : option string) (w : world) : bool :=
  match acquire w with
  | Some w1 => expired (snd (execute_task cfg e task context_id task_id (armed cfg w1)))
  | None => false
  end.

(** a coroutine that was cut by the timer ends with CancelledError *)
Definition cancel_faithful {A} (m : M A) : Prop :=
  forall w, expired w = false -> expired (snd (m w)) = true ->
            fst (m w) = Raise CancelledError.

(** the envelope sent when [wait_for] raises TimeoutError *)
Definition timeout_envelope (cfg : config) : dict :=
  [("success", JBool false);
   ("error", JStr ("Task timed out after " +:+ pretty (TASK_TIMEOUT_SECONDS cfg) +:+ "s"))].

(** ** Sample inputs *)

(** writing [n] at [cs], with the missing directories *)
Fixpoint put_path (cs : list string) (n : node) (t : node) : node :=
  match cs with
  | [] => n
  | c :: cs' =>
      match t with
      | Dir es =>
          match find_entry c es with
          | Some _ => Dir (update_entry c (put_path cs' n) es)
          | None => Dir (es ++ [(c, put_path cs' n (Dir []))])
          end
      | _ => t
      end
  end.

(** a process that has just started in "/", with the default pool *)
Definition fresh_world : world :=
  {| fs := Dir [("tmp", Dir [])]; cwd := ["/"]; unlinked := false; sem := 5%nat;
     ticks := 0%nat; time := 0; deadline := None; expired := false; stored := [] |}.

Definition text_block (s : string) : block :=
  {| block_text := Some s; block_name := None |}.

Definition tool_block (s : string) : block :=
  {| block_text := None; block_name := Some s |}.

(** an engine that answers "4" after [ms] milliseconds and writes
    [files] (paths below the root); uploads take 100 ms and succeed *)
Definition sample_env (ms : Z) (files : list (list string)) : env :=
  {| clock := fun n => 1700000000000000 + Z.of_nat n * 2500;
     mkdir_fault := None; no_entry := fun _ => false;
     engine_time := ms;
     engine_msgs := [ContentList [text_block "Let me compute."; tool_block "Bash"];
                     NoContent;
                     ContentList [text_block "4"]];
     engine_end := None;
     engine_fs := fun t => fold_left (fun t' cs => put_path cs File t') files t;
     upload_time := fun _ => 100;
     upload_reply := fun p => Ret [("url", JStr ("http://files/" +:+ name p))];
     rmtree_fault := None |}.

Definition sample_workspace : path := ["/"; "tmp"; "claude-workspaces"; "t1"].

Definition sample_request : request :=
  {| body := Some {| task := Some "compute 2+2"; contextId := Some "ctx1";
                     taskId := Some "t1" |} |}.

(** a workspace in which the engine ran Python: a report, a hidden
    cache file, a compiled module and a __pycache__ directory *)
Definition python_workspace : node :=
  Dir [("tmp", Dir [("claude-workspaces", Dir [("t1", Dir [
         ("report.csv", File);
         (".cache", File);
         ("helper.pyc", File);
         ("__pycache__", Dir [("helper.cpython-311.pyc", File)])])])])].

(** a clock read twice within one millisecond *)
Definition burst_clock (n : nat) : Z :=
  match n with
  | O => 1700000000000100
  | _ => 1700000000000900
  end.

Definition burst_env : env :=
  {| clock := burst_clock; mkdir_fault := None; no_entry := fun _ => false;
     engine_time := 0; engine_msgs := []; engine_end := None;
     engine_fs := fun t => t; upload_time := fun _ => 0;
     upload_reply := fun _ => Ret []; rmtree_fault := None |}.

(** three files written by the engine; the file handler refuses b.csv *)
Definition flaky_env : env :=
  {| clock := fun n => 1700000000000000 + Z.of_nat n * 2500;
     mkdir_fault := None; no_entry := fun _ => false;
     engine_time := 4000;
     engine_msgs := [ContentList [tool_block "Write"]];
     engine_end := None;
     engine_fs := fun t =>
       put_path ["tmp"; "claude-workspaces"; "t1"; "c.csv"] File
         (put_path ["tmp"; "claude-workspaces"; "t1"; "b.csv"] File
            (put_path ["tmp"; "claude-workspaces"; "t1"; "a.csv"] File t));
     upload_time := fun _ => 100;
     upload_reply := fun p =>
       if String.eqb (name p) "b.csv" then Raise (Exception "Server error '500 Internal Server Error'")
       else Ret [("url", JStr ("http://files/" +:+ name p))];
     rmtree_fault := None |}.

(** a base directory below a dot directory *)
Definition dot_config : config :=
  {| ANTHROPIC_API_KEY := None; FILE_HANDLER_URL := "http://localhost:3000";
     TASK_TIMEOUT_SECONDS := 300; MAX_TURNS := 50;
     WORKSPACE_BASE := "/home/app/.cache/workspaces";
     MAX_CONCURRENT_TASKS := 5%nat; PORT := 8080 |}.

(** a base directory given relative to the parent of the working
    directory *)
Definition updir_config : config :=
  {| ANTHROPIC_API_KEY := None; FILE_HANDLER_URL := "http://localhost:3000";
     TASK_TIMEOUT_SECONDS := 300; MAX_TURNS := 50;
     WORKSPACE_BASE := "../workspaces";
     MAX_CONCURRENT_TASKS := 5%nat; PORT := 8080 |}.

(** a process started in /srv/executor *)
Definition service_world : world :=
  {| fs := Dir [("srv", Dir [("executor", Dir [])])]; cwd := ["/"; "srv"; "executor"];
     unlinked := false; sem := 5%nat; ticks := 0%nat; time := 0; deadline := None; expired := false;
     stored := [] |}.

(** ** Two calls on one event loop

    A call runs without interruption up to its first [await], the
    engine's stream; the other handlers run while it is suspended there. *)

(** a call up to the engine's stream: the workspace, the start time, how
    the head of the [try] block ended, and the local [original_cwd] *)
Definition enter (cfg : config) (e : env) (task_id : option string)
  : M (path * Z * outcome unit * option path) :=
  workspace <- locate cfg e task_id ;;
  start_time <- now e ;;
  fun w =>
    let '(r0, original_cwd, w1) := setup_workspace e workspace w in
    (Ret (workspace, start_time, r0, original_cwd), w1).

(** the same call from the engine's stream to its end *)
Definition leave (cfg : config) (e : env) (task_content context_id : string)
    (f : path * Z * outcome unit * option path) : M dict :=
  let '(workspace, start_time, r0, original_cwd) := f in
  resume cfg e task_content context_id workspace start_time r0 original_cwd.

(** the directory a suspended call will go back to *)
Definition saved_cwd (f : outcome (path * Z * outcome unit * option path)) : option path :=
  match f with
  | Ret (_, _, _, original_cwd) => original_cwd
  | Raise _ => None
  end.

Definition leave_after (cfg : config) (e : env) (task_content context_id : string)
    (f : outcome (path * Z * outcome unit * option path)) : M dict :=
  match f with
  | Ret f' => leave cfg e task_content context_id f'
  | Raise x => raise x
  end.

Definition workspace_a : path := ["/"; "tmp"; "claude-workspaces"; "a"].
Definition workspace_b : path := ["/"; "tmp"; "claude-workspaces"; "b"].

Definition workspace_c : path := ["/"; "tmp"; "claude-workspaces"; "c"].

(** requests a, b and c are admitted one after the other, each while
    the earlier ones wait for the engine *)
Definition three_entered
  : outcome (path * Z * outcome unit * option path)
    * outcome (path * Z * outcome unit * option path)
    * outcome (path * Z * outcome unit * option path) * world :=
  let e := sample_env 4000 [] in
  let '(fa, w1) := enter default_config e (Some "a") fresh_world in
  let '(fb, w2) := enter default_config e (Some "b") w1 in
  let '(fc, w3) := enter default_config e (Some "c") w2 in
  (fa, fb, fc, w3).

(** a finishes first, then c, then b *)
Definition three_left : outcome dict * outcome dict * outcome dict * world :=
  let e := sample_env 4000 [] in
  let '(fa, fb, fc, w3) := three_entered in
  let '(ra, w4) := leave_after default_config e "task a" "ctx1" fa w3 in
  let '(rc, w5) := leave_after default_config e "task c" "ctx1" fc w4 in
  let '(rb, w6) := leave_after default_config e "task b" "ctx1" fb w5 in
  (ra, rb, rc, w6).

(** an await neither takes a slot nor reads the clock *)
Definition steady (w w' : world) : Prop :=
  sem w' = sem w /\ ticks w' = ticks w.

(** the server after two requests reached the semaphore, the first of
    which is inside the block *)
Definition sample_server : server :=
  {| pool := set_sem 4 (set_sem 5 fresh_world);
     handlers :=
       [{| code := Block (serve default_config (sample_env 4000 []) "compute 2+2" "ctx1"
                            (Some "t1"))
                         (fun r => Release (Return r));
           acquired := 1; released := 0 |};
        {| code := handler_of default_config (sample_env 4000 []) sample_request;
           acquired := 0; released := 0 |}] |}.

(** ** Vocabulary of the further statements *)

(** a request that passes the three checks of [handle_execute] *)
Definition well_formed (req : request) : bool :=
  match body req with
  | None => false
  | Some data => negb (falsy (task data)) && negb (falsy (contextId data))
  end.

(** the messages of the three checks *)
Definition validation_messages : list string :=
  ["Invalid JSON body"; "Missing 'task' field"; "Missing 'contextId' field"].

(** where the handler of a request can stand, with its counters: before
    the block, in it, at its end or behind it; the body of the block
    leaves the semaphore alone *)
Definition placed (h : handler) : Prop :=
  match code h with
  | Return _ => released h = acquired h /\ (acquired h <= 1)%nat
  | Acquire k =>
      acquired h = 0%nat /\ released h = 0%nat
      /\ exists m, k = Block m (fun r => Release (Return r))
                   /\ forall w, sem (snd (m w)) = sem w
  | Block m k =>
      acquired h = 1%nat /\ released h = 0%nat
      /\ k = (fun r => Release (Return r))
      /\ forall w, sem (snd (m w)) = sem w
  | Release k =>
      acquired h = 1%nat /\ released h = 0%nat /\ exists r, k = Return r
  end.

(** the sign of a float: [true] for the negative ones *)
Definition sign_bit (x : float) : bool :=
  match x with
  | SpecFloat.S754_zero s | SpecFloat.S754_infinity s | SpecFloat.S754_finite s _ _ => s
  | SpecFloat.S754_nan => false
  end.

(** [w'] has the file system and the working directory of [w] *)
Definition same_disk (w w' : world) : Prop :=
  fs w' = fs w /\ cwd w' = cwd w.

(** a string without a slash is one component for [split_on] *)
Definition no_slash (s : string) : Prop := split_on "/"%char s = [s].

(** what [execute_task] reports for an exception of the engine *)
Definition reported (x : exn) : string :=
  match x with
  | TimeoutError _ => "Task timed out"
  | _ => str_exn x
  end.

(** a directory is found at [p] *)
Definition is_dir_at (p : path) (t : node) : bool :=
  match lookup_path (comps p) t with
  | Some (Dir _) => true
  | _ => false
  end.

(** a request for a directory of the system as its workspace *)
Definition absolute_id_env : env :=
  sample_env 4000 [["etc"; "cron.d"; "report.csv"]].

Definition system_world : world :=
  {| fs := Dir [("etc", Dir [("cron.d", Dir [("backup", File)])]); ("tmp", Dir [])];
     cwd := ["/"]; unlinked := false; sem := 5%nat; ticks := 0%nat; time := 0; deadline := None;
     expired := false; stored := [] |}.

(** an engine that fails after two seconds *)
Definition failing_env (x : exn) : env :=
  {| clock := fun n => 1700000000000000 + Z.of_nat n * 2500;
     mkdir_fault := None; no_entry := fun _ => false;
     engine_time := 2000;
     engine_msgs := [ContentList [text_block "working"]];
     engine_end := Some x;
     engine_fs := fun t => put_path ["tmp"; "claude-workspaces"; "t1"; "partial.csv"] File t;
     upload_time := fun _ => 100;
     upload_reply := fun p => Ret [("url", JStr ("http://files/" +:+ name p))];
     rmtree_fault := None |}.



(** a timeout of zero seconds *)
Definition zero_config : config :=
  {| ANTHROPIC_API_KEY := None; FILE_HANDLER_URL := "http://localhost:3000";
     TASK_TIMEOUT_SECONDS := 0; MAX_TURNS := 50;
     WORKSPACE_BASE := "/tmp/claude-workspaces";
     MAX_CONCURRENT_TASKS := 5%nat; PORT := 8080 |}.

(** the collaborators of [sample_env 4000 []] for a process that may not
    enter the directory [d] *)
Definition barred_env (d : string) : env :=
  {| clock := fun n => 1700000000000000 + Z.of_nat n * 2500;
     mkdir_fault := None;
     no_entry := fun p => String.eqb (str_path p) d;
     engine_time := 4000;
     engine_msgs := [ContentList [text_block "4"]];
     engine_end := None;
     engine_fs := fun t => t;
     upload_time := fun _ => 100;
     upload_reply := fun p => Ret [("url", JStr ("http://files/" +:+ name p))];
     rmtree_fault := None |}.


(** * Properties *)

(** ** The file system *)

Lemma find_entry_without c es : find_entry c (without c es) = None.
Proof.
  induction es as [|[c' n] es IH]; simpl; [reflexivity|].
  destruct (String.eqb c c') eqn:E; simpl; [assumption|].
  rewrite E. assumption.
Qed.

Lemma find_entry_update c f es :
  find_entry c (update_entry c f es) = option_map f (find_entry c es).
Proof.
  induction es as [|[c' n] es IH]; simpl; [reflexivity|].
  destruct (String.eqb c c') eqn:E; simpl; rewrite E; [reflexivity|assumption].
Qed.

Lemma lookup_remove_path cs :
  cs <> [] -> forall t, lookup_path cs (remove_path cs t) = None.
Proof.
  induction cs as [|c cs IH]; intros Hne t; [congruence|].
  destruct cs as [|c2 cs].
  - destruct t as [| |es]; simpl; try reflexivity.
    rewrite find_entry_without. reflexivity.
  - destruct t as [| |es]; try reflexivity.
    change (remove_path (c :: c2 :: cs) (Dir es))
      with (Dir (update_entry c (remove_path (c2 :: cs)) es)).
    change (lookup_path (c :: c2 :: cs) (Dir (update_entry c (remove_path (c2 :: cs)) es)))
      with (match find_entry c (update_entry c (remove_path (c2 :: cs)) es) with
            | Some n => lookup_path (c2 :: cs) n
            | None => None
            end).
    rewrite find_entry_update.
    destruct (find_entry c es) as [n|]; simpl option_map; cbv iota; [|reflexivity].
    apply IH. discriminate.
Qed.

(** ** The artifact listing *)

Lemma hidden_app p q : hidden (p ++ q) = hidden p || hidden q.
Proof. unfold hidden. apply existsb_app. Qed.

(** induction over a tree, with the hypothesis for every entry of a
    directory *)
Lemma node_nested_ind (P : node -> Prop) :
  P File -> P Special ->
  (forall es, Forall (fun e => P (snd e)) es -> P (Dir es)) ->
  forall t, P t.
Proof.
  intros Pf Ps Pd.
  refine (fix go (t : node) : P t :=
            match t with
            | File => Pf
            | Special => Ps
            | Dir es =>
                Pd es ((fix all (l : list (string * node))
                          : Forall (fun e => P (snd e)) l :=
                          match l with
                          | [] => @List.Forall_nil _ _
                          | e :: l' => @List.Forall_cons _ _ e l' (go (snd e)) (all l')
                          end) es)
            end).
Qed.

Lemma rglob_from_prefix t : forall p item,
  item ∈ rglob_from p t -> exists q, fst item = p ++ q.
Proof.
  induction t as [| |es IH] using node_nested_ind; intros p item Hin; simpl in Hin.
  - apply elem_of_nil in Hin. contradiction.
  - apply elem_of_nil in Hin. contradiction.
  - apply elem_of_app in Hin. destruct Hin as [Hin|Hin].
    + apply list_elem_of_fmap in Hin. destruct Hin as [e [-> _]].
      exists [fst e]. reflexivity.
    + apply list_elem_of_In, in_flat_map in Hin. destruct Hin as [e [He Hin]].
      apply list_elem_of_In in He, Hin.
      rewrite Forall_forall in IH.
      destruct (IH e He _ _ Hin) as [q Hq].
      exists (fst e :: q). rewrite Hq, <- app_assoc. reflexivity.
Qed.

Lemma rglob_prefix t p item : item ∈ rglob p t -> exists q, fst item = p ++ q.
Proof.
  unfold rglob. destruct (lookup_path (comps p) t) as [n|]; intros Hin.
  - eapply rglob_from_prefix; eassumption.
  - apply elem_of_nil in Hin. contradiction.
Qed.

(** what the listing returns: the regular files found by [rglob] whose
    path has no part beginning with a dot and whose name is none of the
    three names of [non_artifact_names] *)
Lemma list_workspace_files_spec t workspace p :
  p ∈ list_workspace_files t workspace true <->
  (p, File) ∈ rglob workspace t /\ hidden p = false
  /\ existsb (String.eqb (name p)) non_artifact_names = false.
Proof.
  unfold list_workspace_files. rewrite list_elem_of_fmap. split.
  - intros [[p' n] [-> Hin]]. apply list_elem_of_In, filter_In in Hin.
    destruct Hin as [Hin Hk]. apply list_elem_of_In in Hin.
    unfold keep_item in Hk. cbn [fst snd] in *.
    destruct n; cbn [is_file] in Hk; try discriminate.
    destruct (hidden p'); cbn [andb] in Hk; try discriminate.
    destruct (existsb (String.eqb (name p')) non_artifact_names); [discriminate|auto].
  - intros (Hin & Hh & Hn). exists (p, File). split; [reflexivity|].
    apply list_elem_of_In, filter_In. split; [apply list_elem_of_In; assumption|].
    unfold keep_item. simpl fst. simpl snd. simpl is_file. cbv iota.
    rewrite Hh. simpl andb. cbv iota. rewrite Hn. reflexivity.
Qed.

Lemma filter_none {A} (f : A -> bool) (l : list A) :
  (forall x, x ∈ l -> f x = false) -> List.filter f l = [].
Proof.
  induction l as [|a l IH]; intros H; simpl; [reflexivity|].
  rewrite (H a) by apply list_elem_of_here.
  apply IH. intros x Hx. apply H. apply list_elem_of_further. assumption.
Qed.

Lemma list_workspace_files_hidden t workspace :
  hidden workspace = true -> list_workspace_files t workspace true = [].
Proof.
  intros Hh. unfold list_workspace_files.
  rewrite filter_none; [reflexivity|].
  intros [p n] Hin.
  destruct (rglob_prefix _ _ _ Hin) as [q Hq]. cbn [fst] in Hq. subst p.
  unfold keep_item. cbn [fst snd].
  rewrite hidden_app, Hh.
  destruct (is_file n); reflexivity.
Qed.

(** ** The listing on a Python workspace *)

(** the scenario of the specification: of report.csv and a hidden .cache
    only report.csv is listed *)
Example listing_skips_dotfile :
  list_workspace_files
    (Dir [("tmp", Dir [("claude-workspaces", Dir [("t1", Dir [
       ("report.csv", File); (".cache", File)])])])])
    sample_workspace true
  = [sample_workspace ++ ["report.csv"]].
Proof. reflexivity. Qed.

(** C6 at the failing input: a compiled module and the content of a
    __pycache__ directory are listed as artifacts; the test on the name
    skips only files that are called "__pycache__", ".pyc" or ".pyo". *)
Theorem listing_keeps_compiled_files :
  list_workspace_files python_workspace sample_workspace true
  = [sample_workspace ++ ["report.csv"];
     sample_workspace ++ ["helper.pyc"];
     sample_workspace ++ ["__pycache__"; "helper.cpython-311.pyc"]].
Proof. reflexivity. Qed.

(** ** What the synchronous steps leave alone *)

Lemma same_loop_refl w : same_loop w w.
Proof. repeat split. Qed.

Lemma same_loop_trans w1 w2 w3 : same_loop w1 w2 -> same_loop w2 w3 -> same_loop w1 w3.
Proof.
  unfold same_loop. intros (?&?&?&?&?&?) (?&?&?&?&?&?).
  repeat split; congruence.
Qed.

Ltac frame := unfold same_loop; simpl; repeat split; reflexivity.

Lemma chdir_same_loop e p w : same_loop w (snd (chdir e p w)).
Proof.
  unfold chdir.
  destruct (lookup_path (comps p) (fs w)) as [[| |es]|]; try destruct (no_entry e p); frame.
Qed.

Lemma chdir_fs e p w : fs (snd (chdir e p w)) = fs w.
Proof.
  unfold chdir.
  destruct (lookup_path (comps p) (fs w)) as [[| |es]|]; try destruct (no_entry e p);
    reflexivity.
Qed.

Lemma mkdir_same_loop e p w : same_loop w (snd (mkdir e p w)).
Proof.
  unfold mkdir. destruct (mkdir_fault e); [frame|].
  destruct (mkdir_p (comps p) (fs w)); frame.
Qed.

Lemma getcwd_world w : snd (getcwd w) = w.
Proof. unfold getcwd. destruct (cwd_gone w); reflexivity. Qed.

Lemma rmtree_same_loop e p w : same_loop w (snd (rmtree e p w)).
Proof.
  unfold rmtree. destruct (rmtree_fault e); [frame|].
  destruct (comps p); frame.
Qed.

Lemma setup_workspace_same_loop e workspace w :
  same_loop w (snd (setup_workspace e workspace w)).
Proof.
  unfold setup_workspace.
  pose proof (mkdir_same_loop e workspace w) as Hm.
  destruct (mkdir e workspace w) as [[u|x] w1]; simpl in Hm; [|exact Hm].
  pose proof (getcwd_world w1) as Hg.
  destruct (getcwd w1) as [[c|x] w2]; simpl in Hg; subst w2; [|exact Hm].
  pose proof (chdir_same_loop e workspace w1) as Hc.
  destruct (chdir e workspace w1) as [[u'|x] w3]; simpl in Hc |- *;
    eapply same_loop_trans; eassumption.
Qed.

Lemma cleanup_same_loop e original_cwd workspace w :
  same_loop w (cleanup e original_cwd workspace w).
Proof.
  unfold cleanup, swallow.
  set (w1 := match original_cwd with Some p => snd (chdir e p w) | None => w end).
  assert (H1 : same_loop w w1).
  { subst w1. destruct original_cwd; [apply chdir_same_loop|apply same_loop_refl]. }
  eapply same_loop_trans; [exact H1|].
  destruct (exists_path workspace (fs w1)); [apply rmtree_same_loop|apply same_loop_refl].
Qed.

(** after the [finally] block the workspace is gone, unless rmtree
    failed or had the root directory to remove *)
Lemma cleanup_removes e original_cwd workspace w :
  rmtree_fault e = None -> comps workspace <> [] ->
  exists_path workspace (fs (cleanup e original_cwd workspace w)) = false.
Proof.
  intros Hf Hne. unfold cleanup, swallow.
  set (w1 := match original_cwd with Some p => snd (chdir e p w) | None => w end).
  destruct (exists_path workspace (fs w1)) eqn:Hex; [|exact Hex].
  unfold rmtree. rewrite Hf.
  destruct (comps workspace) as [|c cs] eqn:Hc; [congruence|].
  cbn [snd]. unfold exists_path, set_unlinked, set_fs. cbn [fs]. rewrite Hc.
  rewrite lookup_remove_path by discriminate. reflexivity.
Qed.

Lemma resolve_world p w : snd (resolve p w) = w.
Proof.
  unfold resolve, bind, ret, raise, getcwd.
  destruct (existsb has_nul p); [reflexivity|].
  destruct p as [|r cs]; [|destruct (is_root r)];
    try destruct (cwd_gone w); reflexivity.
Qed.

(** finding the workspace reads the clock at most *)
Lemma locate_world cfg e task_id w :
  exists n, snd (locate cfg e task_id w) = set_ticks n w.
Proof.
  unfold locate, bind, task_id_or_new.
  destruct task_id as [s|]; [destruct (String.eqb s "")|]; unfold bind, now, ret.
  - exists (S (ticks w)).
    pose proof (resolve_world
                  (joinpath (Path (WORKSPACE_BASE cfg)) (Path (gen_task_id (clock e (ticks w)))))
                  (set_ticks (S (ticks w)) w)) as H.
    destruct (resolve _ _) as [[p|x] w']; cbn [snd] in H |- *; exact H.
  - exists (ticks w).
    pose proof (resolve_world (joinpath (Path (WORKSPACE_BASE cfg)) (Path s)) w) as H.
    destruct (resolve _ _) as [[p|x] w']; cbn [snd] in H |- *; subst w'; destruct w; reflexivity.
  - exists (S (ticks w)).
    pose proof (resolve_world
                  (joinpath (Path (WORKSPACE_BASE cfg)) (Path (gen_task_id (clock e (ticks w)))))
                  (set_ticks (S (ticks w)) w)) as H.
    destruct (resolve _ _) as [[p|x] w']; cbn [snd] in H |- *; exact H.
Qed.

(** ** What the awaits leave alone *)

Lemma run_claude_steady cfg e task_content workspace w :
  steady w (snd (_run_claude cfg e task_content workspace w)).
Proof.
  unfold _run_claude, bind, await. cbn [deadline set_fs].
  destruct (deadline w) as [D|]; [destruct (D <? _)|]; split; reflexivity.
Qed.

Lemma upload_steady e filepath url context_id w :
  steady w (snd (upload_to_file_handler e filepath url context_id w)).
Proof.
  unfold upload_to_file_handler.
  destruct (exists_path filepath (fs w)); [|split; reflexivity].
  unfold bind, await.
  destruct (deadline w) as [D|]; [destruct (D <? _)|];
    try (split; reflexivity); destruct (upload_reply e filepath); split; reflexivity.
Qed.

Lemma steady_trans w1 w2 w3 : steady w1 w2 -> steady w2 w3 -> steady w1 w3.
Proof. unfold steady. intros [? ?] [? ?]. split; congruence. Qed.

Lemma upload_each_steady cfg e context_id files : forall artifacts w,
  steady w (snd (upload_each cfg e context_id files artifacts w)).
Proof.
  induction files as [|p files IH]; intros artifacts w; [split; reflexivity|].
  cbn [upload_each].
  pose proof (upload_steady e p (FILE_HANDLER_URL cfg) context_id w) as Hu.
  destruct (upload_to_file_handler e p (FILE_HANDLER_URL cfg) context_id w) as [[d|x] w1];
    cbn [snd] in Hu.
  - eapply steady_trans; [exact Hu|apply IH].
  - destruct (is_Exception x); [eapply steady_trans; [exact Hu|apply IH]|exact Hu].
Qed.

Lemma upload_artifacts_steady cfg e workspace context_id w :
  steady w (snd (_upload_artifacts cfg e workspace context_id w)).
Proof.
  unfold _upload_artifacts.
  destruct (negb (exists_path workspace (fs w))); [split; reflexivity|apply upload_each_steady].
Qed.

Lemma run_and_collect_sem cfg e task_content context_id workspace start_time w :
  sem (snd (run_and_collect cfg e task_content context_id workspace start_time w)) = sem w.
Proof.
  unfold run_and_collect, bind.
  pose proof (run_claude_steady cfg e task_content workspace w) as [Hc _].
  destruct (_run_claude cfg e task_content workspace w) as [[text|x] w1]; cbn [snd] in *;
    [|exact Hc].
  pose proof (upload_artifacts_steady cfg e workspace context_id w1) as [Hu _].
  destruct (_upload_artifacts cfg e workspace context_id w1) as [[artifacts|x] w2];
    cbn [snd] in *; [|congruence].
  cbn. congruence.
Qed.

Lemma handle_errors_sem e start_time r w :
  sem (snd (handle_errors e start_time r w)) = sem w.
Proof. destruct r as [d|[m| |m]]; reflexivity. Qed.

Lemma try_statement_sem cfg e task_content context_id workspace start_time w :
  sem (snd (try_statement cfg e task_content context_id workspace start_time w)) = sem w.
Proof.
  unfold try_statement, resume.
  pose proof (setup_workspace_same_loop e workspace w) as Hl.
  destruct (setup_workspace e workspace w) as [[r0 original_cwd] w1]. cbn [snd] in Hl.
  destruct Hl as (Hs1 & _).
  assert (Hs2 : sem (snd (match r0 with
                          | Ret _ => run_and_collect cfg e task_content context_id workspace
                                       start_time w1
                          | Raise x => (Raise x, w1)
                          end)) = sem w1).
  { destruct r0; [apply run_and_collect_sem|reflexivity]. }
  destruct (match r0 with
            | Ret _ => run_and_collect cfg e task_content context_id workspace start_time w1
            | Raise x => (Raise x, w1)
            end) as [r1 w2]. cbn [snd] in Hs2.
  pose proof (handle_errors_sem e start_time r1 w2) as Hs3.
  destruct (handle_errors e start_time r1 w2) as [r2 w3]. cbn [snd] in *.
  destruct (cleanup_same_loop e original_cwd workspace w3) as (Hs4 & _).
  congruence.
Qed.

Lemma execute_task_sem cfg e task_content context_id task_id w :
  sem (snd (execute_task cfg e task_content context_id task_id w)) = sem w.
Proof.
  unfold execute_task, bind.
  destruct (locate_world cfg e task_id w) as [n Hn].
  destruct (locate cfg e task_id w) as [[workspace|x] w1]; cbn [snd] in Hn; subst w1;
    [|reflexivity].
  unfold now. rewrite try_statement_sem. reflexivity.
Qed.

(** the body of the block leaves the semaphore alone, however
    [execute_task] ended *)
Lemma serve_sem cfg e task_content context_id task_id w :
  sem (snd (serve cfg e task_content context_id task_id w)) = sem w.
Proof.
  unfold serve, wait_for.
  destruct (TASK_TIMEOUT_SECONDS cfg <=? 0); [reflexivity|].
  pose proof (execute_task_sem cfg e task_content context_id task_id
                (set_deadline (Some (time w + TASK_TIMEOUT_SECONDS cfg * 1000)) false w))
    as Hs.
  destruct (execute_task cfg e task_content context_id task_id
              (set_deadline (Some (time w + TASK_TIMEOUT_SECONDS cfg * 1000)) false w))
    as [r1 w1].
  cbn [snd sem set_deadline] in Hs.
  destruct r1 as [d|[m| |m]]; [| |destruct (expired w1)|]; cbn; exact Hs.
Qed.

(** the handler gives back the slot it took, however [execute_task]
    ended *)
Lemma handle_execute_returns_slot cfg e req w r w' :
  handle_execute cfg e req w = Some (r, w') -> sem w' = sem w.
Proof.
  unfold handle_execute.
  destruct (body req) as [data|]; [|intros H; injection H as _ <-; reflexivity].
  destruct (falsy (task data)); [intros H; injection H as _ <-; reflexivity|].
  destruct (falsy (contextId data)); [intros H; injection H as _ <-; reflexivity|].
  unfold async_with_semaphore, acquire.
  destruct (sem w) as [|n] eqn:Hsem; [discriminate|].
  pose proof (serve_sem cfg e (text_of (task data)) (text_of (contextId data))
                (taskId data) (set_sem n w)) as Hs.
  destruct (serve cfg e (text_of (task data)) (text_of (contextId data)) (taskId data)
              (set_sem n w)) as [r1 w1].
  cbn [snd sem set_sem] in Hs.
  intros H; injection H as _ <-. cbn. congruence.
Qed.

(** ** The result does not depend on the fate of rmtree *)

Lemma upload_each_rmtree f cfg e context_id files : forall artifacts w,
  upload_each cfg (with_rmtree_fault f e) context_id files artifacts w
  = upload_each cfg e context_id files artifacts w.
Proof.
  induction files as [|p files IH]; intros artifacts w; [reflexivity|].
  cbn [upload_each].
  change (upload_to_file_handler (with_rmtree_fault f e)) with (upload_to_file_handler e).
  destruct (upload_to_file_handler e p (FILE_HANDLER_URL cfg) context_id w) as [[d|x] w'].
  - apply IH.
  - destruct (is_Exception x); [apply IH|reflexivity].
Qed.

Lemma run_and_collect_rmtree f cfg e task_content context_id workspace start_time w :
  run_and_collect cfg (with_rmtree_fault f e) task_content context_id workspace start_time w
  = run_and_collect cfg e task_content context_id workspace start_time w.
Proof.
  unfold run_and_collect, bind.
  change (_run_claude cfg (with_rmtree_fault f e)) with (_run_claude cfg e).
  destruct (_run_claude cfg e task_content workspace w) as [[text|x] w1]; [|reflexivity].
  unfold _upload_artifacts.
  destruct (negb (exists_path workspace (fs w1))); [reflexivity|].
  rewrite upload_each_rmtree. reflexivity.
Qed.

Lemma try_statement_rmtree f cfg e task_content context_id workspace start_time w :
  fst (try_statement cfg (with_rmtree_fault f e) task_content context_id workspace start_time w)
  = fst (try_statement cfg e task_content context_id workspace start_time w).
Proof.
  unfold try_statement, resume.
  change (setup_workspace (with_rmtree_fault f e)) with (setup_workspace e).
  destruct (setup_workspace e workspace w) as [[r0 original_cwd] w1].
  assert (Hrun : (match r0 with
                  | Ret _ => run_and_collect cfg (with_rmtree_fault f e) task_content
                               context_id workspace start_time w1
                  | Raise x => (Raise x, w1)
                  end)
                 = (match r0 with
                    | Ret _ => run_and_collect cfg e task_content context_id workspace
                                 start_time w1
                    | Raise x => (Raise x, w1)
                    end)).
  { destruct r0; [apply run_and_collect_rmtree|reflexivity]. }
  rewrite Hrun.
  destruct (match r0 with
            | Ret _ => run_and_collect cfg e task_content context_id workspace start_time w1
            | Raise x => (Raise x, w1)
            end) as [r1 w2].
  change (handle_errors (with_rmtree_fault f e)) with (handle_errors e).
  destruct (handle_errors e start_time r1 w2) as [r2 w3]. reflexivity.
Qed.

Lemma execute_task_rmtree f cfg e task_content context_id task_id w :
  fst (execute_task cfg (with_rmtree_fault f e) task_content context_id task_id w)
  = fst (execute_task cfg e task_content context_id task_id w).
Proof.
  unfold execute_task, bind.
  change (locate cfg (with_rmtree_fault f e)) with (locate cfg e).
  destruct (locate cfg e task_id w) as [[workspace|x] w1]; [|reflexivity].
  change (now (with_rmtree_fault f e)) with (now e).
  destruct (now e w1) as [[start_time|x] w2]; [|reflexivity].
  apply try_statement_rmtree.
Qed.

(** ** The workspace after the call *)

Lemma try_statement_removes cfg e task_content context_id workspace start_time w :
  rmtree_fault e = None -> comps workspace <> [] ->
  exists_path workspace
    (fs (snd (try_statement cfg e task_content context_id workspace start_time w))) = false.
Proof.
  intros Hf Hne. unfold try_statement, resume.
  destruct (setup_workspace e workspace w) as [[r0 original_cwd] w1].
  destruct (match r0 with
            | Ret _ => run_and_collect cfg e task_content context_id workspace start_time w1
            | Raise x => (Raise x, w1)
            end) as [r1 w2].
  destruct (handle_errors e start_time r1 w2) as [r2 w3].
  cbn [snd]. apply cleanup_removes; assumption.
Qed.

(** C2, as the code has it: on every way out of [execute_task] the
    [finally] block has run; when its rmtree did not fail (and was not
    asked to remove the root directory) the workspace does not exist after
    the call, whatever the outcome was; a failure of rmtree changes
    nothing in what the call returns or raises. *)
Theorem workspace_removed_unless_rmtree_fails
    cfg e task_content context_id task_id w workspace w1 :
  locate cfg e task_id w = (Ret workspace, w1) ->
  rmtree_fault e = None ->
  comps workspace <> [] ->
  exists_path workspace
    (fs (snd (execute_task cfg e task_content context_id task_id w))) = false
  /\ forall f,
       fst (execute_task cfg (with_rmtree_fault f e) task_content context_id task_id w)
       = fst (execute_task cfg e task_content context_id task_id w).
Proof.
  intros Hloc Hf Hne. split; [|intros f; apply execute_task_rmtree].
  unfold execute_task, bind. rewrite Hloc.
  destruct (now e w1) as [[start_time|x] w2] eqn:Hnow; [|discriminate Hnow].
  apply try_statement_removes; assumption.
Qed.

Lemma workspace_removed_unless_rmtree_fails_witness :
  locate default_config (sample_env 4000 [["tmp"; "claude-workspaces"; "t1"; "report.csv"]])
         (Some "t1") fresh_world = (Ret sample_workspace, fresh_world)
  /\ exists_path sample_workspace
       (fs (snd (execute_task default_config
                   (sample_env 4000 [["tmp"; "claude-workspaces"; "t1"; "report.csv"]])
                   "compute 2+2" "ctx1" (Some "t1") fresh_world))) = false.
Proof.
  split; [reflexivity|].
  apply (workspace_removed_unless_rmtree_fails default_config
           (sample_env 4000 [["tmp"; "claude-workspaces"; "t1"; "report.csv"]])
           "compute 2+2" "ctx1" (Some "t1") fresh_world sample_workspace fresh_world);
    [reflexivity|reflexivity|discriminate].
Defined.

(** C2, as the claim has it, fails: the engine leaves something that
    rmtree cannot delete; the call returns its success envelope and the
    workspace is still there. *)
Lemma workspace_survives_failed_rmtree :
  let e := with_rmtree_fault (Some "[Errno 13] Permission denied: 'locked'")
             (sample_env 4000 [["tmp"; "claude-workspaces"; "t1"; "locked"; "data.bin"]]) in
  fst (locate default_config e (Some "t1") fresh_world) = Ret sample_workspace
  /\ fst (execute_task default_config e "compute 2+2" "ctx1" (Some "t1") fresh_world)
     = Ret (success_envelope "4"
              [JDict [("filename", JStr "data.bin"); ("url", JStr "http://files/data.bin")]] 2)
  /\ exists_path sample_workspace
       (fs (snd (execute_task default_config e "compute 2+2" "ctx1" (Some "t1") fresh_world)))
     = true.
Proof. vm_compute. repeat split. Qed.

(** ** The text of a stream *)

Lemma default_last_cons {A} (a x : A) (l : list A) :
  default a (last (x :: l)) = default x (last l).
Proof. rewrite last_cons. destruct (last l); reflexivity. Qed.

Lemma see_blocks bs : forall final_response,
  fold_left see_block bs final_response
  = default final_response (last (omap block_text bs)).
Proof.
  induction bs as [|b bs IH]; intros final_response; [reflexivity|].
  cbn [fold_left]. rewrite IH. unfold see_block.
  cbn [omap list_omap]. destruct (block_text b) as [t|]; [|reflexivity].
  rewrite default_last_cons. reflexivity.
Qed.

Lemma see_messages msgs : forall final_response,
  fold_left see_message msgs final_response
  = default final_response (last (texts msgs)).
Proof.
  induction msgs as [|m msgs IH]; intros final_response; [reflexivity|].
  cbn [fold_left]. rewrite IH. unfold see_message. rewrite see_blocks.
  unfold texts. cbn [flat_map]. rewrite last_app.
  destruct (last (flat_map (fun m0 => omap block_text (blocks_of m0)) msgs));
    reflexivity.
Qed.

Lemma consume_latest msgs : consume msgs = default "" (last (texts msgs)).
Proof. apply see_messages. Qed.

(** ** Generated task identifiers *)

Lemma gen_task_id_inj a b : gen_task_id a = gen_task_id b -> timestamp_ms a = timestamp_ms b.
Proof.
  unfold gen_task_id. intros H. injection H as H.
  exact (pretty_Z_inj _ _ H).
Qed.

(** the milliseconds are computed in floats: 2147493600 seconds after
    the epoch the reading of 2000 microseconds is still counted to the
    first millisecond *)
Lemma timestamp_ms_is_rounded :
  timestamp_ms 2147493600001999 = 2147493600001
  /\ timestamp_ms 2147493600002000 = 2147493600001
  /\ timestamp_ms 2147493600002001 = 2147493600002.
Proof. vm_compute. repeat split. Qed.

(** C8, as the code has it: two calls without a task id get the same
    identifier exactly when int(datetime.now().timestamp() * 1000), as
    the floats give it, is the same number for their two clock readings;
    the identifier holds nothing else. *)
Theorem generated_ids_equal_iff_same_stamp e w1 w2 :
  fst (task_id_or_new e None w1) = fst (task_id_or_new e None w2)
  <-> timestamp_ms (clock e (ticks w1)) = timestamp_ms (clock e (ticks w2)).
Proof.
  unfold task_id_or_new, bind, now, ret. cbn [fst]. split.
  - intros H. apply gen_task_id_inj. congruence.
  - intros H. unfold gen_task_id. rewrite H. reflexivity.
Qed.

(** C8, as the claim has it, fails: two calls in a row, the second one
    reading the clock 800 microseconds after the first, generate the same
    identifier. *)
Lemma generated_ids_collide_in_burst :
  ~ (forall e w1 w2, ticks w1 <> ticks w2 ->
       fst (task_id_or_new e None w1) <> fst (task_id_or_new e None w2)).
Proof.
  intros H.
  apply (H burst_env fresh_world (set_ticks 1 fresh_world)); [discriminate|].
  vm_compute. reflexivity.
Qed.

(** ** The uploads *)

Lemma accepted_cons_some e t p d files context_id :
  accepted e t p = Some d ->
  collected e t (p :: files) = artifact p d :: collected e t files
  /\ handed_over e context_id t (p :: files) = (p, context_id) :: handed_over e context_id t files.
Proof.
  intros H. unfold collected, handed_over. cbn [omap list_omap]. rewrite H. split; reflexivity.
Qed.

Lemma accepted_cons_none e t p files context_id :
  accepted e t p = None ->
  collected e t (p :: files) = collected e t files
  /\ handed_over e context_id t (p :: files) = handed_over e context_id t files.
Proof.
  intros H. unfold collected, handed_over. cbn [omap list_omap]. rewrite H. split; reflexivity.
Qed.

(** a file whose upload fails leaves no record and takes nothing from
    the files before and after it *)
Lemma collected_skips_failed e t before bad after_ :
  accepted e t bad = None ->
  collected e t (before ++ bad :: after_) = collected e t before ++ collected e t after_.
Proof.
  intros H. unfold collected. rewrite omap_app. cbn [omap list_omap]. rewrite H.
  reflexivity.
Qed.

Lemma span_nonneg e t files :
  (forall f, 0 <= upload_time e f) -> 0 <= span e t files.
Proof.
  intros H. induction files as [|p files IH]; cbn [span fold_right]; [lia|].
  fold (span e t files). specialize (H p).
  destruct (exists_path p t); lia.
Qed.

Lemma await_in_time {A} d (r : outcome A) w :
  in_time w d -> await d r w = (r, set_time (time w + d) (expired w) w).
Proof.
  intros H. unfold await. destruct (deadline w) as [D|] eqn:Hd; [|reflexivity].
  specialize (H D Hd).
  replace (D <? time w + d) with false by (symmetry; apply Z.ltb_ge; lia).
  reflexivity.
Qed.

(** when the deadline, if any, leaves the time for them, and uploads
    fail only by raising an Exception, the loop goes through all the
    files: it returns the records of the files that were taken, in order,
    and the file handler has received exactly these *)
Lemma upload_each_spec cfg e context_id files : forall artifacts w,
  (forall f, 0 <= upload_time e f) ->
  in_time w (span e (fs w) files) ->
  (forall f, f ∈ files -> upload_reply e f <> Raise CancelledError) ->
  upload_each cfg e context_id files artifacts w
  = (Ret (artifacts ++ collected e (fs w) files),
     set_stored (stored w ++ handed_over e context_id (fs w) files)
       (set_time (time w + span e (fs w) files) (expired w) w)).
Proof.
  induction files as [|p files IH]; intros artifacts w Hpos Hd Hup.
  - unfold collected, handed_over, span. cbn [omap list_omap fold_right upload_each].
    rewrite !app_nil_r, Z.add_0_r. destruct w; reflexivity.
  - assert (Hup' : forall f, f ∈ files -> upload_reply e f <> Raise CancelledError).
    { intros f Hf. apply Hup. apply list_elem_of_further. exact Hf. }
    pose proof (span_nonneg e (fs w) files Hpos) as Hspan.
    cbn [upload_each]. unfold upload_to_file_handler.
    cbn [span fold_right] in Hd |- *. fold (span e (fs w) files) in Hd |- *.
    destruct (exists_path p (fs w)) eqn:Hex.
    + unfold bind. rewrite await_in_time by (intros D HD; specialize (Hd D HD); lia).
      assert (Hrest : forall l,
                in_time (set_stored l (set_time (time w + upload_time e p) (expired w) w))
                        (span e (fs w) files)).
      { intros l D HD. cbn in HD |- *. specialize (Hd D HD). lia. }
      destruct (upload_reply e p) as [d|x] eqn:Hr.
      * destruct (accepted_cons_some e (fs w) p d files context_id) as [Hc Hh].
        { unfold accepted. rewrite Hex, Hr. reflexivity. }
        rewrite IH; [|exact Hpos|apply Hrest|exact Hup'].
        cbn [fs set_stored set_time stored time expired].
        rewrite Hc, Hh, <- !app_assoc, Z.add_assoc. reflexivity.
      * destruct (accepted_cons_none e (fs w) p files context_id) as [Hc Hh].
        { unfold accepted. rewrite Hex, Hr. reflexivity. }
        assert (Hx : is_Exception x = true).
        { destruct x; try reflexivity. exfalso. apply (Hup p); [apply list_elem_of_here|exact Hr]. }
        rewrite Hx. rewrite IH; [|exact Hpos| |exact Hup'].
        -- cbn [fs set_stored set_time stored time expired].
           rewrite Hc, Hh, Z.add_assoc. reflexivity.
        -- intros D HD. cbn in HD |- *. specialize (Hd D HD). lia.
    + destruct (accepted_cons_none e (fs w) p files context_id) as [Hc Hh].
      { unfold accepted. rewrite Hex. reflexivity. }
      cbn [is_Exception]. rewrite IH; [|exact Hpos| |exact Hup'].
      * rewrite Hc, Hh, Z.add_0_l. reflexivity.
      * intros D HD. specialize (Hd D HD). lia.
Qed.

Lemma upload_artifacts_spec cfg e workspace context_id w :
  let files := list_workspace_files (fs w) workspace true in
  (forall f, 0 <= upload_time e f) ->
  in_time w (span e (fs w) files) ->
  (forall f, upload_reply e f <> Raise CancelledError) ->
  _upload_artifacts cfg e workspace context_id w
  = (Ret (collected e (fs w) files),
     set_stored (stored w ++ handed_over e context_id (fs w) files)
       (set_time (time w + span e (fs w) files) (expired w) w)).
Proof.
  intros files Hpos Hd Hup. unfold _upload_artifacts.
  destruct (exists_path workspace (fs w)) eqn:Hex; cbn [negb].
  - rewrite upload_each_spec by auto. reflexivity.
  - assert (Hnil : files = []).
    { subst files. unfold list_workspace_files, rglob.
      unfold exists_path in Hex.
      destruct (lookup_path (comps workspace) (fs w)); [discriminate|reflexivity]. }
    rewrite Hnil. unfold collected, handed_over, span. cbn [omap list_omap fold_right].
    rewrite app_nil_r, Z.add_0_r. destruct w; reflexivity.
Qed.

(** ** The engine's stream *)

Lemma run_claude_done cfg e task_content workspace w :
  engine_end e = None -> in_time w (engine_time e) ->
  _run_claude cfg e task_content workspace w
  = (Ret (consume (engine_msgs e)),
     set_time (time w + engine_time e) (expired w) (set_fs (engine_fs e (fs w)) w)).
Proof.
  intros He Hd. unfold _run_claude, bind.
  rewrite await_in_time by exact Hd. rewrite He. reflexivity.
Qed.

(** ** The way to the success envelope *)

Lemma try_statement_success cfg e task_content context_id workspace start_time w
    original_cwd w1 :
  let t := engine_fs e (fs w1) in
  let files := list_workspace_files t workspace true in
  setup_workspace e workspace w = (Ret tt, original_cwd, w1) ->
  engine_end e = None ->
  (forall f, 0 <= upload_time e f) ->
  in_time w (engine_time e + span e t files) ->
  (forall f, upload_reply e f <> Raise CancelledError) ->
  exists w',
    try_statement cfg e task_content context_id workspace start_time w
    = (Ret (success_envelope (consume (engine_msgs e)) (collected e t files)
              (duration_ms start_time (clock e (ticks w)))), w')
    /\ stored w' = stored w ++ handed_over e context_id t files.
Proof.
  intros t files Hs He Hpos Hd Hup.
  pose proof (setup_workspace_same_loop e workspace w) as Hl.
  rewrite Hs in Hl. cbn [snd] in Hl.
  destruct Hl as (_ & Hticks & Htime & Hdl & _ & Hst).
  pose proof (span_nonneg e t files Hpos) as Hspan.
  unfold try_statement, resume. rewrite Hs.
  unfold run_and_collect, bind.
  rewrite run_claude_done;
    [|exact He|intros D HD; rewrite Hdl in HD; specialize (Hd D HD); lia].
  rewrite upload_artifacts_spec;
    [|exact Hpos
     |intros D HD; cbn in HD |- *; rewrite Hdl in HD; specialize (Hd D HD);
      fold t; fold files; lia
     |exact Hup].
  cbn [fs set_time set_fs ticks set_stored now ret handle_errors].
  rewrite Hticks.
  eexists. split; [reflexivity|].
  match goal with
  | |- stored (cleanup ?e' ?o ?p ?W) = _ =>
      destruct (cleanup_same_loop e' o p W) as (_ & _ & _ & _ & _ & Hst')
  end.
  rewrite Hst'. cbn [stored set_ticks set_stored set_time set_fs].
  rewrite Hst. reflexivity.
Qed.

Lemma execute_task_success cfg e task_content context_id task_id w
    workspace w1 original_cwd w2 :
  let t := engine_fs e (fs w2) in
  let files := list_workspace_files t workspace true in
  locate cfg e task_id w = (Ret workspace, w1) ->
  setup_workspace e workspace (set_ticks (S (ticks w1)) w1) = (Ret tt, original_cwd, w2) ->
  engine_end e = None ->
  (forall f, 0 <= upload_time e f) ->
  in_time w (engine_time e + span e t files) ->
  (forall f, upload_reply e f <> Raise CancelledError) ->
  exists w',
    execute_task cfg e task_content context_id task_id w
    = (Ret (success_envelope (consume (engine_msgs e)) (collected e t files)
              (duration_ms (clock e (ticks w1)) (clock e (S (ticks w1))))), w')
    /\ stored w' = stored w ++ handed_over e context_id t files.
Proof.
  intros t files Hloc Hs He Hpos Hd Hup.
  destruct (locate_world cfg e task_id w) as [n Hn]. rewrite Hloc in Hn. cbn [snd] in Hn.
  destruct (try_statement_success cfg e task_content context_id workspace
              (clock e (ticks w1)) _ _ _ Hs He Hpos) as [w' [Hrun Hst]].
  { rewrite Hn. exact Hd. }
  { exact Hup. }
  exists w'. split.
  - unfold execute_task, bind. rewrite Hloc. unfold now. exact Hrun.
  - rewrite Hst, Hn. reflexivity.
Qed.

(** C5: when the run itself succeeds (and the deadline, if one is armed,
    leaves the time for the engine and the uploads), uploads that fail by
    raising are skipped one by one: the call returns the success
    envelope, its artifact list holds the records of exactly the files
    the file handler took, in the order of the listing, and the file
    handler has received every one of these, whichever of the other files
    failed. *)
Theorem failed_uploads_are_skipped cfg e task_content context_id task_id w
    workspace w1 original_cwd w2 :
  let t := engine_fs e (fs w2) in
  let files := list_workspace_files t workspace true in
  locate cfg e task_id w = (Ret workspace, w1) ->
  setup_workspace e workspace (set_ticks (S (ticks w1)) w1) = (Ret tt, original_cwd, w2) ->
  engine_end e = None ->
  (forall f, 0 <= upload_time e f) ->
  in_time w (engine_time e + span e t files) ->
  (forall f, upload_reply e f <> Raise CancelledError) ->
  exists text d w',
    execute_task cfg e task_content context_id task_id w
    = (Ret (success_envelope text (collected e t files) d), w')
    /\ stored w' = stored w ++ handed_over e context_id t files.
Proof.
  intros t files Hloc Hs He Hpos Hd Hup.
  destruct (execute_task_success cfg e task_content context_id task_id w
              workspace w1 original_cwd w2 Hloc Hs He Hpos Hd Hup) as [w' [H1 H2]].
  eauto.
Qed.

(** C7: the fold over a finished stream returns the text of the last
    block that has one, and the empty string when there is none; the call
    then returns the success envelope with that text as its result
    (provided nothing else fails and the deadline, if one is armed,
    leaves the time for the engine and the uploads). *)
Theorem latest_text_is_the_result cfg e task_content context_id task_id w
    workspace w1 original_cwd w2 :
  locate cfg e task_id w = (Ret workspace, w1) ->
  setup_workspace e workspace (set_ticks (S (ticks w1)) w1) = (Ret tt, original_cwd, w2) ->
  engine_end e = None ->
  (forall f, 0 <= upload_time e f) ->
  in_time w (engine_time e
             + span e (engine_fs e (fs w2))
                 (list_workspace_files (engine_fs e (fs w2)) workspace true)) ->
  (forall f, upload_reply e f <> Raise CancelledError) ->
  consume (engine_msgs e) = default "" (last (texts (engine_msgs e)))
  /\ fst (_run_claude cfg e task_content workspace w2)
     = Ret (default "" (last (texts (engine_msgs e))))
  /\ exists artifacts d w',
       execute_task cfg e task_content context_id task_id w
       = (Ret (success_envelope (default "" (last (texts (engine_msgs e)))) artifacts d), w').
Proof.
  intros Hloc Hs He Hpos Hd Hup.
  destruct (execute_task_success cfg e task_content context_id task_id w
              workspace w1 original_cwd w2 Hloc Hs He Hpos Hd Hup) as [w' [H1 H2]].
  rewrite consume_latest in H1.
  split; [apply consume_latest|]. split; [|eauto].
  rewrite run_claude_done, consume_latest; [reflexivity|exact He|].
  destruct (locate_world cfg e task_id w) as [n Hn]. rewrite Hloc in Hn. cbn [snd] in Hn.
  pose proof (setup_workspace_same_loop e workspace (set_ticks (S (ticks w1)) w1)) as Hl.
  rewrite Hs in Hl. cbn [snd] in Hl. destruct Hl as (_ & _ & Htime & Hdl & _).
  pose proof (span_nonneg e (engine_fs e (fs w2))
                (list_workspace_files (engine_fs e (fs w2)) workspace true) Hpos) as Hspan.
  intros D HD. rewrite Hdl, Hn in HD. cbn [deadline set_ticks] in HD.
  specialize (Hd D HD). rewrite Htime, Hn. cbn [time set_ticks]. lia.
Qed.

Lemma failed_uploads_are_skipped_witness :
  exists text d w',
    execute_task default_config flaky_env "write three tables" "ctx1" (Some "t1")
      (armed default_config fresh_world)
    = (Ret (success_envelope text
              [JDict [("filename", JStr "a.csv"); ("url", JStr "http://files/a.csv")];
               JDict [("filename", JStr "c.csv"); ("url", JStr "http://files/c.csv")]] d), w')
    /\ stored w' = [(sample_workspace ++ ["a.csv"], "ctx1");
                    (sample_workspace ++ ["c.csv"], "ctx1")].
Proof.
  pose proof (failed_uploads_are_skipped default_config flaky_env "write three tables"
                "ctx1" (Some "t1") (armed default_config fresh_world) sample_workspace
                (armed default_config fresh_world) (Some ["/"])
                (set_cwd sample_workspace
                   (set_fs (Dir [("tmp", Dir [("claude-workspaces", Dir [("t1", Dir [])])])])
                      (set_ticks 1 (armed default_config fresh_world))))) as H.
  apply H; try reflexivity.
  - intros f. cbn. lia.
  - intros D HD. injection HD as <-. vm_compute. discriminate.
  - intros f. cbn [upload_reply flaky_env].
    destruct (String.eqb (name f) "b.csv"); discriminate.
Defined.

Lemma latest_text_is_the_result_witness :
  exists artifacts d w',
    execute_task default_config (sample_env 4000 []) "compute 2+2" "ctx1" (Some "t1")
      (armed default_config fresh_world)
    = (Ret (success_envelope "4" artifacts d), w').
Proof.
  apply (latest_text_is_the_result default_config (sample_env 4000 []) "compute 2+2"
           "ctx1" (Some "t1") (armed default_config fresh_world) sample_workspace
           (armed default_config fresh_world) (Some ["/"])
           (set_cwd sample_workspace
              (set_fs (Dir [("tmp", Dir [("claude-workspaces", Dir [("t1", Dir [])])])])
                 (set_ticks 1 (armed default_config fresh_world)))));
    try reflexivity.
  - intros f. cbn. lia.
  - intros D HD. injection HD as <-. vm_compute. discriminate.
  - intros f. discriminate.
Defined.

(** ** A workspace below a dot directory *)

Lemma collapse_plain cs : forall acc,
  (forall c, c ∈ cs -> c <> "..") -> collapse acc cs = List.rev acc ++ cs.
Proof.
  induction cs as [|c cs IH]; intros acc H; cbn [collapse].
  - rewrite app_nil_r. reflexivity.
  - assert (Hc : String.eqb c ".." = false).
    { apply String.eqb_neq. apply H. apply list_elem_of_here. }
    rewrite Hc, IH.
    + cbn [List.rev]. rewrite <- app_assoc. reflexivity.
    + intros c' Hc'. apply H. apply list_elem_of_further. exact Hc'.
Qed.

(** a base directory that is absolute and has no ".." is the prefix of
    the resolved workspace of every plain task id: if one of its
    components begins with a dot, so does a part of the workspace *)
Lemma hidden_base_hides_workspace cfg e task_id w :
  task_id <> "" ->
  is_absolute (Path (WORKSPACE_BASE cfg)) = true ->
  is_absolute (Path task_id) = false ->
  (forall c, c ∈ Path (WORKSPACE_BASE cfg) ++ Path task_id -> c <> "..") ->
  existsb has_nul (Path (WORKSPACE_BASE cfg) ++ Path task_id) = false ->
  hidden (Path (WORKSPACE_BASE cfg)) = true ->
  locate cfg e (Some task_id) w
  = (Ret ("/" :: comps (Path (WORKSPACE_BASE cfg)) ++ Path task_id), w)
  /\ hidden ("/" :: comps (Path (WORKSPACE_BASE cfg)) ++ Path task_id) = true.
Proof.
  intros Hne Habs Hrel Hplain Hnul Hh.
  destruct (Path (WORKSPACE_BASE cfg)) as [|r cs] eqn:HP; [discriminate|].
  cbn [is_absolute] in Habs. cbn [comps]. rewrite Habs.
  split.
  - unfold locate, task_id_or_new, bind, ret.
    apply String.eqb_neq in Hne. rewrite Hne.
    unfold joinpath. rewrite Hrel, HP. unfold resolve. rewrite Hnul.
    cbn [app]. rewrite Habs. unfold ret.
    rewrite collapse_plain; [reflexivity|].
    intros c Hc. apply Hplain. apply list_elem_of_further. exact Hc.
  - change ("/" :: cs ++ Path task_id) with (["/"] ++ cs ++ Path task_id).
    rewrite !hidden_app.
    change (r :: cs) with ([r] ++ cs) in Hh. rewrite hidden_app in Hh.
    unfold is_root in Habs. apply orb_true_iff in Habs.
    destruct Habs as [Hr|Hr]; apply String.eqb_eq in Hr; subst r;
      cbn in Hh; rewrite Hh; reflexivity.
Qed.

Lemma upload_artifacts_hidden cfg e workspace context_id w :
  hidden workspace = true ->
  _upload_artifacts cfg e workspace context_id w = (Ret [], w).
Proof.
  intros Hh. unfold _upload_artifacts.
  destruct (negb (exists_path workspace (fs w))); [reflexivity|].
  rewrite list_workspace_files_hidden by exact Hh. reflexivity.
Qed.

Lemma run_claude_stored cfg e task_content workspace w :
  stored (snd (_run_claude cfg e task_content workspace w)) = stored w.
Proof.
  unfold _run_claude, bind, await. cbn [deadline set_fs].
  destruct (deadline w) as [D|]; [destruct (D <? _)|]; reflexivity.
Qed.

Lemma handle_errors_stored e start_time r w :
  stored (snd (handle_errors e start_time r w)) = stored w.
Proof. destruct r as [d|[m| |m]]; reflexivity. Qed.

Lemma try_statement_hidden cfg e task_content context_id workspace start_time w :
  hidden workspace = true ->
  stored (snd (try_statement cfg e task_content context_id workspace start_time w)) = stored w
  /\ forall d,
       fst (try_statement cfg e task_content context_id workspace start_time w) = Ret d ->
       get "artifacts" d = Some (JList []) \/ get "artifacts" d = None.
Proof.
  intros Hh. unfold try_statement, resume.
  pose proof (setup_workspace_same_loop e workspace w) as Hl.
  destruct (setup_workspace e workspace w) as [[r0 original_cwd] w1]. cbn [snd] in Hl.
  destruct Hl as (_ & _ & _ & _ & _ & Hst1).
  assert (Hrun : exists r1 w2,
            (match r0 with
             | Ret _ => run_and_collect cfg e task_content context_id workspace start_time w1
             | Raise x => (Raise x, w1)
             end) = (r1, w2)
            /\ stored w2 = stored w1
            /\ forall d, r1 = Ret d -> get "artifacts" d = Some (JList [])).
  { destruct r0 as [u|x].
    - unfold run_and_collect, bind.
      pose proof (run_claude_stored cfg e task_content workspace w1) as Hst2.
      destruct (_run_claude cfg e task_content workspace w1) as [[text|x] w2]; cbn [snd] in Hst2.
      + rewrite upload_artifacts_hidden by exact Hh.
        eexists _, _. split; [reflexivity|]. split; [exact Hst2|].
        intros d Hd. injection Hd as <-. reflexivity.
      + eexists _, _. split; [reflexivity|]. split; [exact Hst2|]. discriminate.
    - eexists _, _. split; [reflexivity|]. split; [reflexivity|]. discriminate. }
  destruct Hrun as (r1 & w2 & -> & Hst2 & Hart).
  pose proof (handle_errors_stored e start_time r1 w2) as Hst3.
  assert (Hshape : forall d, fst (handle_errors e start_time r1 w2) = Ret d ->
                     get "artifacts" d = Some (JList []) \/ get "artifacts" d = None).
  { intros d. destruct r1 as [d1|[m| |m]]; cbn.
    - intros Hd. left. apply Hart. congruence.
    - intros Hd. injection Hd as <-. right. reflexivity.
    - discriminate.
    - intros Hd. injection Hd as <-. right. reflexivity. }
  destruct (handle_errors e start_time r1 w2) as [r2 w3]. cbn [fst snd] in *.
  split; [|exact Hshape].
  destruct (cleanup_same_loop e original_cwd workspace w3) as (_ & _ & _ & _ & _ & Hst4).
  congruence.
Qed.

(** C10, as the code has it: the test for hidden files looks at every
    part of the absolute path, the parts of the resolved workspace
    included; when one of these begins with a dot the listing is empty
    whatever the workspace holds, nothing is handed to the file handler,
    and an envelope that carries an artifact list carries the empty one. *)
Theorem hidden_workspace_reports_no_artifact cfg e task_content context_id task_id w
    workspace w1 :
  locate cfg e task_id w = (Ret workspace, w1) ->
  hidden workspace = true ->
  (forall t, list_workspace_files t workspace true = [])
  /\ stored (snd (execute_task cfg e task_content context_id task_id w)) = stored w
  /\ forall d,
       fst (execute_task cfg e task_content context_id task_id w) = Ret d ->
       get "artifacts" d = Some (JList []) \/ get "artifacts" d = None.
Proof.
  intros Hloc Hh. split; [intros t; apply list_workspace_files_hidden; exact Hh|].
  destruct (locate_world cfg e task_id w) as [n Hn]. rewrite Hloc in Hn. cbn [snd] in Hn.
  unfold execute_task, bind. rewrite Hloc. unfold now.
  destruct (try_statement_hidden cfg e task_content context_id workspace
              (clock e (ticks w1)) (set_ticks (S (ticks w1)) w1) Hh) as [Hst Hd].
  split; [|exact Hd]. rewrite Hst, Hn. reflexivity.
Qed.

Lemma hidden_workspace_reports_no_artifact_witness :
  list_workspace_files
    (Dir [("home", Dir [("app", Dir [(".cache", Dir [("workspaces", Dir [("t1", Dir [
       ("report.csv", File)])])])])])])
    ["/"; "home"; "app"; ".cache"; "workspaces"; "t1"] true = []
  /\ stored (snd (execute_task dot_config
                    (sample_env 4000 [["home"; "app"; ".cache"; "workspaces"; "t1"; "report.csv"]])
                    "compute 2+2" "ctx1" (Some "t1") fresh_world)) = [].
Proof.
  pose proof (hidden_workspace_reports_no_artifact dot_config
                (sample_env 4000 [["home"; "app"; ".cache"; "workspaces"; "t1"; "report.csv"]])
                "compute 2+2" "ctx1" (Some "t1") fresh_world
                ["/"; "home"; "app"; ".cache"; "workspaces"; "t1"] fresh_world
                eq_refl eq_refl) as [H1 [H2 _]].
  split; [apply H1|exact H2].
Defined.

(** C10, as the claim has it, fails: ".." is a component of
    WORKSPACE_BASE that begins with a dot, [resolve] removes it, and the
    report written by the engine is listed, uploaded and reported. *)
Lemma updir_base_still_reports_artifacts :
  let e := sample_env 4000 [["srv"; "workspaces"; "t1"; "report.csv"]] in
  hidden (Path (WORKSPACE_BASE updir_config)) = true
  /\ fst (locate updir_config e (Some "t1") service_world)
     = Ret ["/"; "srv"; "workspaces"; "t1"]
  /\ list_workspace_files
       (Dir [("srv", Dir [("executor", Dir []);
                          ("workspaces", Dir [("t1", Dir [("report.csv", File)])])])])
       ["/"; "srv"; "workspaces"; "t1"] true
     = [["/"; "srv"; "workspaces"; "t1"; "report.csv"]]
  /\ fst (execute_task updir_config e "compute 2+2" "ctx1" (Some "t1") service_world)
     = Ret (success_envelope "4"
              [JDict [("filename", JStr "report.csv");
                      ("url", JStr "http://files/report.csv")]] 2).
Proof. vm_compute. repeat split. Qed.

(** ** Cancellation by the timer *)

Lemma faithful_bind {A B} (m : M A) (k : A -> M B) :
  cancel_faithful m -> (forall a, cancel_faithful (k a)) -> cancel_faithful (bind m k).
Proof.
  intros Hm Hk w Hw He. unfold bind in *.
  specialize (Hm w Hw).
  destruct (m w) as [[a|x] w1]; cbn [fst snd] in *.
  - destruct (expired w1) eqn:Hw1.
    + specialize (Hm eq_refl). discriminate.
    + apply (Hk a w1 Hw1 He).
  - specialize (Hm He). injection Hm as ->. reflexivity.
Qed.

Lemma faithful_quiet {A} (m : M A) :
  (forall w, expired (snd (m w)) = expired w) -> cancel_faithful m.
Proof. intros H w Hw He. rewrite H in He. congruence. Qed.

Lemma faithful_await {A} d (r : outcome A) : cancel_faithful (await d r).
Proof.
  intros w Hw. unfold await.
  destruct (deadline w) as [D|]; [destruct (D <? time w + d)|]; cbn; congruence.
Qed.

Lemma faithful_upload e filepath url context_id :
  cancel_faithful (upload_to_file_handler e filepath url context_id).
Proof.
  intros w Hw. unfold upload_to_file_handler.
  destruct (exists_path filepath (fs w)); [|cbn; congruence].
  revert w Hw. apply faithful_bind; [apply faithful_await|].
  intros d. apply faithful_quiet. reflexivity.
Qed.

Lemma faithful_upload_each cfg e context_id files :
  forall artifacts, cancel_faithful (upload_each cfg e context_id files artifacts).
Proof.
  induction files as [|p files IH]; intros artifacts w Hw; cbn [upload_each].
  - cbn. congruence.
  - pose proof (faithful_upload e p (FILE_HANDLER_URL cfg) context_id w Hw) as Hu.
    destruct (upload_to_file_handler e p (FILE_HANDLER_URL cfg) context_id w)
      as [[d|x] w1]; cbn [fst snd] in Hu.
    + destruct (expired w1) eqn:Hw1; [specialize (Hu eq_refl); discriminate|].
      apply IH. exact Hw1.
    + destruct (is_Exception x) eqn:Hx.
      * destruct (expired w1) eqn:Hw1.
        { specialize (Hu eq_refl). injection Hu as ->. discriminate. }
        apply IH. exact Hw1.
      * cbn. intros Hw1. specialize (Hu Hw1). injection Hu as ->. reflexivity.
Qed.

Lemma faithful_upload_artifacts cfg e workspace context_id :
  cancel_faithful (_upload_artifacts cfg e workspace context_id).
Proof.
  intros w Hw. unfold _upload_artifacts.
  destruct (negb (exists_path workspace (fs w))); [cbn; congruence|].
  apply faithful_upload_each. exact Hw.
Qed.

Lemma faithful_run_claude cfg e task_content workspace :
  cancel_faithful (_run_claude cfg e task_content workspace).
Proof.
  unfold _run_claude. apply faithful_bind; [apply faithful_quiet; reflexivity|].
  intros _. apply faithful_await.
Qed.

Lemma faithful_run_and_collect cfg e task_content context_id workspace start_time :
  cancel_faithful (run_and_collect cfg e task_content context_id workspace start_time).
Proof.
  unfold run_and_collect.
  apply faithful_bind; [apply faithful_run_claude|]. intros text.
  apply faithful_bind; [apply faithful_upload_artifacts|]. intros artifacts.
  apply faithful_bind; [apply faithful_quiet; reflexivity|]. intros t.
  apply faithful_quiet. reflexivity.
Qed.

Lemma handle_errors_expired e start_time r w :
  expired (snd (handle_errors e start_time r w)) = expired w.
Proof. destruct r as [d|[m| |m]]; reflexivity. Qed.

Lemma faithful_try_statement cfg e task_content context_id workspace start_time :
  cancel_faithful (try_statement cfg e task_content context_id workspace start_time).
Proof.
  intros w Hw. unfold try_statement, resume.
  pose proof (setup_workspace_same_loop e workspace w) as Hl.
  destruct (setup_workspace e workspace w) as [[r0 original_cwd] w1]. cbn [snd] in Hl.
  destruct Hl as (_ & _ & _ & _ & Hx1 & _).
  assert (Hrun : forall r1 w2,
            (match r0 with
             | Ret _ => run_and_collect cfg e task_content context_id workspace start_time w1
             | Raise x => (Raise x, w1)
             end) = (r1, w2) ->
            expired w2 = true -> r1 = Raise CancelledError).
  { intros r1 w2 Hrun Hx2. destruct r0 as [u|x].
    - pose proof (faithful_run_and_collect cfg e task_content context_id workspace
                    start_time w1 ltac:(congruence)) as Hf.
      rewrite Hrun in Hf. apply Hf. exact Hx2.
    - injection Hrun as <- <-. congruence. }
  destruct (match r0 with
            | Ret _ => run_and_collect cfg e task_content context_id workspace start_time w1
            | Raise x => (Raise x, w1)
            end) as [r1 w2].
  specialize (Hrun r1 w2 eq_refl).
  pose proof (handle_errors_expired e start_time r1 w2) as Hx3.
  destruct (handle_errors e start_time r1 w2) as [r2 w3] eqn:Hh. cbn [fst snd] in *.
  destruct (cleanup_same_loop e original_cwd workspace w3) as (_ & _ & _ & _ & Hx4 & _).
  intros Hx. rewrite Hx4, Hx3 in Hx. rewrite (Hrun Hx) in Hh.
  cbn in Hh. congruence.
Qed.

Lemma faithful_execute_task cfg e task_content context_id task_id :
  cancel_faithful (execute_task cfg e task_content context_id task_id).
Proof.
  unfold execute_task.
  apply faithful_bind.
  - apply faithful_quiet. intros w.
    destruct (locate_world cfg e task_id w) as [n ->]. reflexivity.
  - intros workspace. apply faithful_bind; [apply faithful_quiet; reflexivity|].
    intros start_time. apply faithful_try_statement.
Qed.

(** ** The deadline *)

Lemma wait_for_fired cfg e task context_id task_id w1 :
  expired (snd (execute_task cfg e task context_id task_id (armed cfg w1))) = true ->
  fst (wait_for (execute_task cfg e task context_id task_id) (TASK_TIMEOUT_SECONDS cfg) w1)
  = Raise (TimeoutError "").
Proof.
  intros Hx. unfold wait_for.
  destruct (TASK_TIMEOUT_SECONDS cfg <=? 0); [reflexivity|]. fold (armed cfg w1).
  pose proof (faithful_execute_task cfg e task context_id task_id (armed cfg w1) eq_refl Hx)
    as Hr.
  destruct (execute_task cfg e task context_id task_id (armed cfg w1)) as [r w'].
  cbn [fst snd] in *. subst r. rewrite Hx. reflexivity.
Qed.

(** whenever the timer of [wait_for] fires while the execution is
    suspended, the handler does not raise: it answers with status 200 and
    the envelope that [handle_execute] builds, and its slot is free
    again *)
Lemma deadline_reports_timeout cfg e task_content context_id task_id w :
  task_content <> "" -> context_id <> "" ->
  timer_fired cfg e task_content context_id task_id w = true ->
  exists w',
    handle_execute cfg e
      {| body := Some {| task := Some task_content; contextId := Some context_id;
                         taskId := task_id |} |} w
    = Some (Ret (json_response (timeout_envelope cfg) 200), w')
    /\ sem w' = sem w.
Proof.
  intros Ht Hc Hfired.
  cut (exists w',
         handle_execute cfg e
           {| body := Some {| task := Some task_content; contextId := Some context_id;
                              taskId := task_id |} |} w
         = Some (Ret (json_response (timeout_envelope cfg) 200), w')).
  { intros [w' H]. exists w'. split; [exact H|].
    eapply handle_execute_returns_slot. exact H. }
  unfold handle_execute. cbn [body task contextId taskId falsy text_of].
  apply String.eqb_neq in Ht, Hc. rewrite Ht, Hc.
  unfold async_with_semaphore, timer_fired in *.
  destruct (acquire w) as [w1|]; [|discriminate].
  unfold serve.
  pose proof (wait_for_fired cfg e task_content context_id task_id w1 Hfired) as Hw.
  destruct (wait_for (execute_task cfg e task_content context_id task_id)
              (TASK_TIMEOUT_SECONDS cfg) w1) as [r w2].
  cbn [fst] in Hw. subst r. eexists. reflexivity.
Qed.

(** C4 at the failing input: the default deadline of 300 seconds and an
    engine that takes 400.  The timer cancels [execute_task], which ends
    with CancelledError: its handler for asyncio.TimeoutError, the one
    with the fixed message and a duration, is not reached, and the caller
    gets the message of [handle_execute], which names the seconds.  An
    engine that raises TimeoutError by itself gets the fixed message. *)
Theorem deadline_bypasses_the_timeout_handler :
  fst (execute_task default_config (sample_env 400000 []) "compute 2+2" "ctx1" (Some "t1")
         (armed default_config (set_sem 4 fresh_world)))
  = Raise CancelledError
  /\ (exists r w',
        handle_execute default_config (sample_env 400000 []) sample_request fresh_world
        = Some (Ret r, w')
        /\ get "success" (payload r) = Some (JBool false)
        /\ get "error" (payload r) = Some (JStr "Task timed out after 300s"))
  /\ exists d,
       fst (execute_task default_config (failing_env (TimeoutError "")) "compute 2+2" "ctx1"
              (Some "t1") fresh_world)
       = Ret (failure_envelope "Task timed out" d).
Proof.
  split; [vm_compute; reflexivity|]. split.
  - eexists _, _. split; [vm_compute; reflexivity|]. cbn. split; reflexivity.
  - eexists. vm_compute. reflexivity.
Qed.

(** C1 at the failing input: a valid request whose engine run outlasts
    the deadline of 300 seconds is answered with an envelope that has an
    error and no result, and no duration_ms field at all. *)
Theorem timeout_envelope_lacks_duration :
  exists r w',
    handle_execute default_config (sample_env 400000 []) sample_request fresh_world
    = Some (Ret r, w')
    /\ status r = 200
    /\ populated "error" (payload r) = true
    /\ populated "result" (payload r) = false
    /\ get "duration_ms" (payload r) = None.
Proof.
  eexists _, _. split; [vm_compute; reflexivity|].
  cbn. repeat split.
Qed.

(** ** The sign of a duration *)

Lemma binary_round_aux_sign m e l :
  sign_bit (SpecFloat.binary_round_aux 53 1024 false m e l) = false.
Proof.
  unfold SpecFloat.binary_round_aux.
  destruct (SpecFloat.shr_fexp 53 1024 m e l) as [mrs' e'].
  destruct (SpecFloat.shr_fexp 53 1024 _ e' SpecFloat.loc_Exact) as [mrs'' e''].
  destruct (SpecFloat.shr_m mrs'') as [|q|q]; [reflexivity| |reflexivity].
  destruct (e'' <=? 1024 - 53); reflexivity.
Qed.

Lemma total_seconds_sign us : 0 <= us -> sign_bit (total_seconds us) = false.
Proof.
  intros H. unfold total_seconds, true_divide, fdiv.
  destruct us as [|p|p]; [reflexivity| |lia].
  cbn [exact_int SpecFloat.SFdiv xorb].
  destruct (SpecFloat.SFdiv_core_binary 53 1024 (Z.pos p) 0 1000000 0) as [[mz ez] lz].
  apply binary_round_aux_sign.
Qed.

Lemma fmul_thousand_sign x :
  sign_bit x = false -> sign_bit (fmul x (float_of_int 1000)) = false.
Proof.
  intros H.
  change (float_of_int 1000) with (SpecFloat.S754_finite false 8796093022208000 (-43)).
  unfold fmul. destruct x as [s|s| |s m e]; cbn [sign_bit] in H; subst;
    cbn [SpecFloat.SFmul xorb]; try reflexivity.
  apply binary_round_aux_sign.
Qed.

Lemma int_of_float_nonneg x : sign_bit x = false -> 0 <= int_of_float x.
Proof.
  destruct x as [s|s| |s m e]; cbn [sign_bit int_of_float]; try lia.
  intros ->. destruct e as [|q|q].
  - apply Z.shiftl_nonneg. lia.
  - apply Z.shiftl_nonneg. lia.
  - apply Z.shiftr_nonneg. lia.
Qed.

(** between two readings of a clock that does not go back the duration
    is not negative *)
Lemma duration_ms_nonneg t0 t1 : t0 <= t1 -> 0 <= duration_ms t0 t1.
Proof.
  intros H. unfold duration_ms.
  apply int_of_float_nonneg, fmul_thousand_sign, total_seconds_sign. lia.
Qed.

(** ** The envelopes of [execute_task] *)

(** whatever the [try] statement returns is one of the two envelopes,
    with the time between the clock reading [start_time] and the next
    one *)
Lemma try_statement_envelope cfg e task_content context_id workspace start_time w d :
  fst (try_statement cfg e task_content context_id workspace start_time w) = Ret d ->
  (exists text artifacts,
      d = success_envelope text artifacts (duration_ms start_time (clock e (ticks w))))
  \/ (exists m, d = failure_envelope m (duration_ms start_time (clock e (ticks w)))).
Proof.
  unfold try_statement, resume.
  pose proof (setup_workspace_same_loop e workspace w) as Hl.
  destruct (setup_workspace e workspace w) as [[r0 original_cwd] w1]. cbn [snd] in Hl.
  destruct Hl as (_ & Ht1 & _).
  assert (Hrun : forall r1 w2,
            (match r0 with
             | Ret _ => run_and_collect cfg e task_content context_id workspace start_time w1
             | Raise x => (Raise x, w1)
             end) = (r1, w2) ->
            match r1 with
            | Ret d1 => exists text artifacts,
                d1 = success_envelope text artifacts
                       (duration_ms start_time (clock e (ticks w)))
            | Raise _ => ticks w2 = ticks w
            end).
  { intros r1 w2 Hrun. destruct r0 as [u|x]; [|injection Hrun as <- <-; exact Ht1].
    unfold run_and_collect, bind in Hrun.
    pose proof (run_claude_steady cfg e task_content workspace w1) as [_ Hc].
    destruct (_run_claude cfg e task_content workspace w1) as [[text|x] wa]; cbn [snd] in Hc;
      [|injection Hrun as <- <-; congruence].
    pose proof (upload_artifacts_steady cfg e workspace context_id wa) as [_ Hu].
    destruct (_upload_artifacts cfg e workspace context_id wa) as [[artifacts|x] wb];
      cbn [snd] in Hu; [|injection Hrun as <- <-; congruence].
    cbn in Hrun. injection Hrun as <- <-.
    exists text, artifacts. unfold success_envelope.
    replace (ticks wb) with (ticks w) by congruence. reflexivity. }
  destruct (match r0 with
            | Ret _ => run_and_collect cfg e task_content context_id workspace start_time w1
            | Raise x => (Raise x, w1)
            end) as [r1 w2].
  specialize (Hrun r1 w2 eq_refl).
  destruct r1 as [d1|[m| |m]]; cbn.
  - intros Hd. injection Hd as <-. left. exact Hrun.
  - intros Hd. injection Hd as <-. right. rewrite Hrun. eauto.
  - discriminate.
  - intros Hd. injection Hd as <-. right. rewrite Hrun. eauto.
Qed.

(** with a clock that does not go back, every envelope that
    [execute_task] returns has exactly one of result and error populated
    and a duration_ms that is not negative *)
Lemma execute_task_envelope cfg e task_content context_id task_id w d :
  (forall n, clock e n <= clock e (S n)) ->
  fst (execute_task cfg e task_content context_id task_id w) = Ret d ->
  xorb (populated "result" d) (populated "error" d) = true
  /\ exists ms, get "duration_ms" d = Some (JInt ms) /\ 0 <= ms.
Proof.
  intros Hmono. unfold execute_task, bind.
  destruct (locate cfg e task_id w) as [[workspace|x] w1]; [|discriminate].
  unfold now. intros Hd.
  apply try_statement_envelope in Hd. cbn [ticks set_ticks] in Hd.
  assert (Hms : 0 <= duration_ms (clock e (ticks w1)) (clock e (S (ticks w1)))).
  { apply duration_ms_nonneg. apply Hmono. }
  destruct Hd as [(text & artifacts & ->)|(m & ->)]; (split; [reflexivity|]); eauto.
Qed.

(** ** Calls that overlap *)

(** a call is its part up to the engine's stream followed by the rest *)
Lemma execute_task_enter_leave cfg e task_content context_id task_id w :
  execute_task cfg e task_content context_id task_id w
  = bind (enter cfg e task_id) (leave cfg e task_content context_id) w.
Proof.
  unfold execute_task, enter, bind.
  destruct (locate cfg e task_id w) as [[workspace|x] w1]; [|reflexivity].
  destruct (now e w1) as [[start_time|x] w2]; [|reflexivity].
  unfold try_statement, leave.
  destruct (setup_workspace e workspace w2) as [[r0 original_cwd] w3]. reflexivity.
Qed.

(** C9 at the failing input: three requests that overlap.  Each call
    changes the working directory of the process: b saves a's workspace
    and c saves b's workspace as the directory to go back to, and while b
    and c are still running the process has left their workspaces.  When
    a, then c, then b have finished -- all three with success -- the
    process is left in b's workspace, which b has removed, and a later
    request fails in [os.getcwd] although none of its collaborators
    fails. *)
Theorem overlapping_calls_share_the_working_directory :
  let e := sample_env 4000 [] in
  let '(fa, fb, fc, w3) := three_entered in
  let '(ra, rb, rc, w6) := three_left in
  saved_cwd fa = Some ["/"]
  /\ saved_cwd fb = Some workspace_a
  /\ saved_cwd fc = Some workspace_b
  /\ cwd w3 = workspace_c
  /\ cwd (snd (leave_after default_config e "task a" "ctx1" fa w3)) = ["/"]
  /\ ra = Ret (success_envelope "4" [] 7)
  /\ rb = Ret (success_envelope "4" [] 10)
  /\ rc = Ret (success_envelope "4" [] 5)
  /\ cwd w6 = workspace_b
  /\ exists_path workspace_b (fs w6) = false
  /\ fst (execute_task default_config e "compute 2+2" "ctx1" (Some "d") w6)
     = Ret (failure_envelope "[Errno 2] No such file or directory" 2).
Proof. vm_compute. repeat split. Qed.

(** the directory the process was left in stays removed: a request for
    the task id b makes a directory of that name again, and still fails
    in [os.getcwd] *)
Lemma a_removed_directory_stays_removed :
  let e := sample_env 4000 [] in
  let '(ra, rb, rc, w6) := three_left in
  cwd w6 = workspace_b
  /\ exists_path workspace_b (fs (snd (mkdir e workspace_b w6))) = true
  /\ fst (getcwd (snd (mkdir e workspace_b w6)))
     = Raise (Exception "[Errno 2] No such file or directory")
  /\ fst (execute_task default_config e "compute 2+2" "ctx1" (Some "b") w6)
     = Ret (failure_envelope "[Errno 2] No such file or directory" 2).
Proof. vm_compute. repeat split. Qed.

(** ** The concurrency slots *)

Lemma running_insert (l : list handler) i h h' :
  l !! i = Some h ->
  (length (List.filter is_running (<[i := h']> l)) + (if is_running h then 1 else 0)
   = length (List.filter is_running l) + (if is_running h' then 1 else 0))%nat.
Proof.
  revert i. induction l as [|a l IH]; intros i Hi; [discriminate|].
  destruct i as [|i].
  - injection Hi as ->. change (<[0%nat := h']> (h :: l)) with (h' :: l).
    cbn [List.filter].
    destruct (is_running h), (is_running h'); cbn [length]; lia.
  - specialize (IH i Hi). change (<[S i := h']> (a :: l)) with (a :: <[i := h']> l).
    cbn [List.filter].
    destruct (is_running a), (is_running h), (is_running h'); cbn [length] in *; lia.
Qed.

Lemma lookup_insert_cases (l : list handler) i j h h' :
  <[i := h']> l !! j = Some h -> (i = j /\ h = h') \/ l !! j = Some h.
Proof.
  intros H. destruct (decide (i = j)) as [->|Hne].
  - destruct (decide (j < length l)%nat) as [Hlt|Hge].
    + rewrite list_lookup_insert_eq in H by exact Hlt. left. split; congruence.
    + rewrite list_insert_ge in H by lia. right. exact H.
  - rewrite list_lookup_insert_ne in H by exact Hne. right. exact H.
Qed.

Lemma handler_of_placed cfg e req :
  placed {| code := handler_of cfg e req; acquired := 0; released := 0 |}.
Proof.
  unfold placed, handler_of. cbn [code acquired released].
  destruct (body req) as [data|]; [|split; [reflexivity|lia]].
  destruct (falsy (task data)); [split; [reflexivity|lia]|].
  destruct (falsy (contextId data)); [split; [reflexivity|lia]|].
  unfold with_semaphore. split; [reflexivity|]. split; [reflexivity|].
  eexists. split; [reflexivity|]. intros w. apply serve_sem.
Qed.

(** a handler that runs without company is [handle_execute] *)
Lemma run_alone_handler cfg e req w :
  run_alone (handler_of cfg e req) w = handle_execute cfg e req w.
Proof.
  unfold handler_of, handle_execute.
  destruct (body req) as [data|]; [|reflexivity].
  destruct (falsy (task data)); [reflexivity|].
  destruct (falsy (contextId data)); [reflexivity|].
  unfold with_semaphore, async_with_semaphore. cbn [run_alone].
  destruct (acquire w) as [w1|]; [|reflexivity].
  destruct (serve cfg e (text_of (task data)) (text_of (contextId data)) (taskId data) w1)
    as [r w2].
  reflexivity.
Qed.

(** the steps of a handler without company are its run *)
Lemma run_alone_steps cfg c : forall w a b r w',
  run_alone c w = Some (r, w') ->
  exists a' b', steps cfg (alone w c a b) (alone w' (Return r) a' b').
Proof.
  induction c as [r0|k IH|m k IH|k IH]; intros w a b r w' H; cbn [run_alone] in H.
  - injection H as <- <-. exists a, b. apply steps_none.
  - destruct (acquire w) as [w1|] eqn:Hacq; [|discriminate].
    destruct (IH w1 (S a) b r w' H) as (a' & b' & Hs).
    exists a', b'. eapply steps_more; [|exact Hs].
    apply (step_acquire cfg (alone w (Acquire k) a b) 0%nat
             {| code := Acquire k; acquired := a; released := b |} k w1);
      [reflexivity|reflexivity| |exact Hacq].
    intros j h' Hj. lia.
  - destruct (m w) as [r1 w1] eqn:Hm.
    destruct (IH r1 w1 a b r w' H) as (a' & b' & Hs).
    exists a', b'. eapply steps_more; [|exact Hs].
    apply (step_block cfg (alone w (Block m k) a b) 0%nat
             {| code := Block m k; acquired := a; released := b |} m k r1 w1);
      [reflexivity|reflexivity|exact Hm].
  - destruct (IH (release w) a (S b) r w' H) as (a' & b' & Hs).
    exists a', b'. eapply steps_more; [|exact Hs].
    apply (step_release cfg (alone w (Release k) a b) 0%nat
             {| code := Release k; acquired := a; released := b |} k); reflexivity.
Qed.

(** the slots that are free and the handlers inside the block make up
    the pool, and every handler stands where its counters say *)
Lemma reachable_slots cfg s :
  reachable cfg s ->
  (sem (pool s) + running s = MAX_CONCURRENT_TASKS cfg)%nat
  /\ forall i h, handlers s !! i = Some h -> placed h.
Proof.
  intros Hr. induction Hr as [w|s s' Hr [Hsem Hpl] Hstep].
  - split; [cbn; lia|]. intros i h Hi. discriminate.
  - destruct Hstep as [s e req|s i h k w' Hi Hc Hfifo Hacq|s i h m k r w' Hi Hc Hm|s i h k Hi Hc];
      unfold running in *; cbn [pool handlers] in *.
    + split.
      * rewrite List.filter_app, length_app. cbn. lia.
      * intros i h Hi. apply lookup_app_Some in Hi. destruct Hi as [Hi|[_ Hi]].
        -- apply (Hpl i h Hi).
        -- apply list_lookup_singleton_Some in Hi. destruct Hi as [_ <-].
           apply handler_of_placed.
    + pose proof (Hpl i h Hi) as Hp. unfold placed in Hp. rewrite Hc in Hp.
      destruct Hp as (Ha & Hrl & m & -> & Hm).
      split.
      * pose proof (running_insert (handlers s) i h
                      {| code := Block m (fun r => Release (Return r));
                         acquired := S (acquired h); released := released h |} Hi) as Hcnt.
        replace (is_running h) with false in Hcnt
          by (unfold is_running; rewrite Ha, Hrl; reflexivity).
        replace (is_running _) with true in Hcnt
          by (unfold is_running; cbn [acquired released]; rewrite Ha, Hrl; reflexivity).
        unfold acquire in Hacq. destruct (sem (pool s)) as [|n] eqn:Hn; [discriminate|].
        injection Hacq as <-. cbn [sem set_sem]. cbv iota in Hcnt. lia.
      * intros j h0 Hj. apply lookup_insert_cases in Hj. destruct Hj as [[_ ->]|Hj].
        -- unfold placed. cbn [code acquired released]. rewrite Ha, Hrl.
           split; [reflexivity|]. split; [reflexivity|]. split; [reflexivity|exact Hm].
        -- apply (Hpl j h0 Hj).
    + pose proof (Hpl i h Hi) as Hp. unfold placed in Hp. rewrite Hc in Hp.
      destruct Hp as (Ha & Hrl & -> & Hsm).
      split.
      * pose proof (running_insert (handlers s) i h
                      {| code := Release (Return r);
                         acquired := acquired h; released := released h |} Hi) as Hcnt.
        replace (is_running h) with true in Hcnt
          by (unfold is_running; rewrite Ha, Hrl; reflexivity).
        replace (is_running _) with true in Hcnt
          by (unfold is_running; cbn [acquired released]; rewrite Ha, Hrl; reflexivity).
        specialize (Hsm (pool s)). rewrite Hm in Hsm. cbn [snd] in Hsm.
        rewrite Hsm. cbv iota in Hcnt. lia.
      * intros j h0 Hj. apply lookup_insert_cases in Hj. destruct Hj as [[_ ->]|Hj].
        -- unfold placed. cbn [code acquired released].
           split; [exact Ha|]. split; [exact Hrl|]. eexists. reflexivity.
        -- apply (Hpl j h0 Hj).
    + pose proof (Hpl i h Hi) as Hp. unfold placed in Hp. rewrite Hc in Hp.
      destruct Hp as (Ha & Hrl & r & ->).
      split.
      * pose proof (running_insert (handlers s) i h
                      {| code := Return r;
                         acquired := acquired h; released := S (released h) |} Hi) as Hcnt.
        replace (is_running h) with true in Hcnt
          by (unfold is_running; rewrite Ha, Hrl; reflexivity).
        replace (is_running _) with false in Hcnt
          by (unfold is_running; cbn [acquired released]; rewrite Ha, Hrl; reflexivity).
        unfold release. cbn [sem set_sem]. cbv iota in Hcnt. lia.
      * intros j h0 Hj. apply lookup_insert_cases in Hj. destruct Hj as [[_ ->]|Hj].
        -- unfold placed. cbn [code acquired released]. rewrite Ha, Hrl. split; [reflexivity|lia].
        -- apply (Hpl j h0 Hj).
Qed.

(** C3: in every state that the handlers of [handle_execute] can reach,
    at most MAX_CONCURRENT_TASKS of them are inside the block under the
    semaphore: the free slots and the handlers inside make up the pool.
    A handler is inside exactly from its [acquire] to its [release]; it
    takes a slot at most once; when it has ended -- with a response or
    with an exception, after a timeout or not -- it has given back the
    slot as often as it took it, and before that it has given back
    nothing.  The handler that these states are made of is
    [handle_execute]: what the function returns for a request is what
    the steps of the handler of that request lead to when no other
    handler takes a step. *)
Theorem slots_bound_running_handlers cfg s :
  reachable cfg s ->
  (running s <= MAX_CONCURRENT_TASKS cfg)%nat
  /\ (sem (pool s) + running s = MAX_CONCURRENT_TASKS cfg)%nat
  /\ (forall i h, handlers s !! i = Some h ->
        (acquired h <= 1)%nat
        /\ released h = match code h with Return _ => acquired h | _ => 0%nat end
        /\ is_running h = match code h with Block _ _ | Release _ => true | _ => false end)
  /\ forall e req w r w',
       handle_execute cfg e req w = Some (r, w') ->
       exists a b,
         steps cfg (alone w (handler_of cfg e req) 0 0) (alone w' (Return r) a b).
Proof.
  intros Hr. destruct (reachable_slots cfg s Hr) as [Hsem Hpl].
  split; [lia|]. split; [exact Hsem|]. split.
  2:{ intros e req w r w' H. apply run_alone_steps.
      rewrite run_alone_handler. exact H. }
  intros i h Hi. specialize (Hpl i h Hi). unfold placed in Hpl. unfold is_running.
  destruct (code h) as [r|k|m k|k].
  - destruct Hpl as [H1 H2]. rewrite H1. split; [exact H2|]. split; [reflexivity|].
    apply Nat.ltb_irrefl.
  - destruct Hpl as (H1 & H2 & _). rewrite H1, H2. repeat split; lia.
  - destruct Hpl as (H1 & H2 & _). rewrite H1, H2. repeat split; lia.
  - destruct Hpl as (H1 & H2 & _). rewrite H1, H2. repeat split; lia.
Qed.

Lemma slots_bound_running_handlers_witness :
  reachable default_config sample_server
  /\ (running sample_server <= 5)%nat
  /\ (sem (pool sample_server) + running sample_server = 5)%nat.
Proof.
  assert (Hr : reachable default_config sample_server).
  { eapply reach_step.
    - eapply reach_step.
      + eapply reach_step.
        * apply (reach_boot default_config fresh_world).
        * apply (step_arrive default_config _ (sample_env 4000 []) sample_request).
      + apply (step_arrive default_config _ (sample_env 4000 []) sample_request).
    - apply (step_acquire default_config
               {| pool := set_sem 5 fresh_world;
                  handlers :=
                    [{| code := handler_of default_config (sample_env 4000 []) sample_request;
                        acquired := 0; released := 0 |};
                     {| code := handler_of default_config (sample_env 4000 []) sample_request;
                        acquired := 0; released := 0 |}] |}
               0%nat
               {| code := handler_of default_config (sample_env 4000 []) sample_request;
                  acquired := 0; released := 0 |}
               (Block (serve default_config (sample_env 4000 []) "compute 2+2" "ctx1"
                         (Some "t1"))
                      (fun r => Release (Return r)))
               (set_sem 4 (set_sem 5 fresh_world))); [reflexivity|reflexivity| |reflexivity].
      intros j h' Hj. lia. }
  split; [exact Hr|].
  destruct (slots_bound_running_handlers default_config sample_server Hr) as (H1 & H2 & _).
  split; [exact H1|exact H2].
Defined.

(** * Further properties *)

(** ** Strings without a NUL byte *)

Lemma has_nul_app a b : has_nul (a +:+ b) = has_nul a || has_nul b.
Proof.
  induction a as [|c a IH]; [reflexivity|].
  simpl. rewrite IH. apply orb_assoc.
Qed.



Lemma pretty_N_char_not_nul x : Ascii.eqb (pretty_N_char x) "000" = false.
Proof. unfold pretty_N_char. repeat case_match; reflexivity. Qed.

Lemma pretty_N_go_no_nul x : forall s, has_nul s = false -> has_nul (pretty_N_go x s) = false.
Proof.
  induction (N.lt_wf_0 x) as [x _ IH]. intros s Hs.
  destruct (decide (x = 0%N)) as [->|Hx]; [rewrite pretty_N_go_0; exact Hs|].
  rewrite pretty_N_go_step by lia.
  apply IH; [apply N.div_lt; lia|].
  cbn [has_nul]. rewrite pretty_N_char_not_nul, Hs. reflexivity.
Qed.

Lemma pretty_Z_no_nul (z : Z) : has_nul (pretty z) = false.
Proof.
  assert (Hp : forall p : positive, has_nul (pretty p) = false).
  { intros p. unfold pretty, pretty_positive, pretty, pretty_N.
    destruct (decide (N.pos p = 0%N)); [discriminate|].
    apply pretty_N_go_no_nul. reflexivity. }
  destruct z as [|p|p]; unfold pretty, pretty_Z.
  - reflexivity.
  - apply Hp.
  - transitivity (has_nul (pretty p)); [reflexivity|apply Hp].
Qed.

(** a generated identifier holds no NUL byte *)
Lemma gen_task_id_no_nul t : has_nul (gen_task_id t) = false.
Proof. unfold gen_task_id. rewrite has_nul_app, pretty_Z_no_nul. reflexivity. Qed.

(** ** What the handler answers *)

Lemma try_statement_raises cfg e task_content context_id workspace start_time w x :
  fst (try_statement cfg e task_content context_id workspace start_time w) = Raise x ->
  x = CancelledError.
Proof.
  unfold try_statement, resume.
  destruct (setup_workspace e workspace w) as [[r0 original_cwd] w1].
  destruct (match r0 with
            | Ret _ => run_and_collect cfg e task_content context_id workspace start_time w1
            | Raise x0 => (Raise x0, w1)
            end) as [r1 w2].
  destruct r1 as [d|[m| |m]]; cbn; congruence.
Qed.



Lemma execute_task_raises cfg e task_content context_id task_id w x :
  fst (execute_task cfg e task_content context_id task_id w) = Raise x ->
  x = CancelledError \/ fst (locate cfg e task_id w) = Raise x.
Proof.
  unfold execute_task, bind.
  destruct (locate cfg e task_id w) as [[workspace|x0] w1]; cbn [fst].
  - unfold now. intros H. left. eapply try_statement_raises. exact H.
  - intros H. right. injection H as ->. reflexivity.
Qed.


(** how [serve] ends: with status 200, with status 500 and the message
    of an exception of [locate], or with a cancellation *)
Lemma serve_outcome cfg e task_content context_id task_id w1 :
  match fst (serve cfg e task_content context_id task_id w1) with
  | Ret r =>
      status r = 200
      \/ exists m, r = json_response [("success", JBool false); ("error", JStr m)] 500
                   /\ fst (locate cfg e task_id (armed cfg w1)) = Raise (Exception m)
  | Raise x => x = CancelledError
  end.
Proof.
  unfold serve, wait_for.
  destruct (TASK_TIMEOUT_SECONDS cfg <=? 0); [left; reflexivity|]. fold (armed cfg w1).
  pose proof (execute_task_raises cfg e task_content context_id task_id (armed cfg w1)) as Hr.
  destruct (execute_task cfg e task_content context_id task_id (armed cfg w1)) as [r w'].
  cbn [fst] in *.
  destruct r as [d|[m| |m]].
  - left. reflexivity.
  - left. reflexivity.
  - destruct (expired w'); cbn; [left|]; reflexivity.
  - cbn. right. exists m. split; [reflexivity|].
    destruct (Hr _ eq_refl) as [H|H]; [discriminate|exact H].
Qed.



(** X1: the three checks come before the semaphore.  For a request
    whose body is not JSON, or is an object whose fields task, contextId
    and taskId are strings where they are given: a request that fails a
    check is answered with status 400, success = false and the message of
    a check, whether a slot is free or not, and nothing in the process
    changes; a request that passes them is never answered with 400, and
    it stays suspended exactly when no slot is free. *)
Theorem validation_precedes_admission cfg e req w :
  (well_formed req = false ->
   exists msg, msg ∈ validation_messages
     /\ handle_execute cfg e req w
        = Some (Ret (json_response [("success", JBool false); ("error", JStr msg)] 400), w))
  /\ (well_formed req = true ->
      (handle_execute cfg e req w = None <-> sem w = 0%nat)
      /\ forall r w', handle_execute cfg e req w = Some (Ret r, w') -> status r <> 400).
Proof.
  unfold well_formed, handle_execute, validation_messages.
  destruct (body req) as [data|].
  - destruct (falsy (task data)); cbn [negb andb].
    + split; [|discriminate]. intros _. exists "Missing 'task' field".
      split; [|reflexivity]. apply list_elem_of_further, list_elem_of_here.
    + destruct (falsy (contextId data)); cbn [negb].
      * split; [|discriminate]. intros _. exists "Missing 'contextId' field".
        split; [|reflexivity].
        apply list_elem_of_further, list_elem_of_further, list_elem_of_here.
      * split; [discriminate|]. intros _.
        unfold async_with_semaphore, acquire.
        destruct (sem w) as [|n].
        -- split; [split; reflexivity|discriminate].
        -- pose proof (serve_outcome cfg e (text_of (task data)) (text_of (contextId data))
                         (taskId data) (set_sem n w)) as Hs.
           destruct (serve cfg e (text_of (task data)) (text_of (contextId data))
                       (taskId data) (set_sem n w)) as [r1 w2]. cbn [fst] in Hs.
           split; [split; discriminate|].
           intros r w' H. injection H as -> _.
           destruct Hs as [Hs|(m & -> & _)]; [rewrite Hs|]; discriminate.
  - split; [|discriminate]. intros _. exists "Invalid JSON body".
    split; [apply list_elem_of_here|reflexivity].
Qed.





(** ** The failures that become envelopes *)

Lemma rmtree_cwd e p w : cwd (snd (rmtree e p w)) = cwd w.
Proof.
  unfold rmtree. destruct (rmtree_fault e); [reflexivity|]. destruct (comps p); reflexivity.
Qed.



Lemma handle_errors_reports e start_time x w :
  is_Exception x = true ->
  handle_errors e start_time (Raise x) w
  = (Ret (failure_envelope (reported x) (duration_ms start_time (clock e (ticks w)))),
     set_ticks (S (ticks w)) w).
Proof. destruct x as [m| |m]; [reflexivity|discriminate|reflexivity]. Qed.

(** X5: when the head of the [try] block went through and the engine's
    stream raises an Exception (before a deadline, if one is armed), the
    call returns the failure envelope: its error is the text of the
    exception, or the fixed "Task timed out" when the exception is a
    TimeoutError; the files the engine had written are not uploaded. *)
Theorem engine_failure_is_reported cfg e task_content context_id task_id w
    workspace w1 original_cwd w2 x :
  locate cfg e task_id w = (Ret workspace, w1) ->
  setup_workspace e workspace (set_ticks (S (ticks w1)) w1) = (Ret tt, original_cwd, w2) ->
  engine_end e = Some x ->
  is_Exception x = true ->
  in_time w (engine_time e) ->
  exists w',
    execute_task cfg e task_content context_id task_id w
    = (Ret (failure_envelope (reported x)
              (duration_ms (clock e (ticks w1)) (clock e (S (ticks w1))))), w')
    /\ stored w' = stored w.
Proof.
  intros Hloc Hs He Hx Hd.
  destruct (locate_world cfg e task_id w) as [n Hn]. rewrite Hloc in Hn. cbn [snd] in Hn.
  pose proof (setup_workspace_same_loop e workspace (set_ticks (S (ticks w1)) w1)) as Hl.
  rewrite Hs in Hl. cbn [snd] in Hl. destruct Hl as (_ & Hticks & Htime & Hdl & _ & Hst).
  unfold execute_task, bind. rewrite Hloc. unfold now, try_statement, resume.
  rewrite Hs. unfold run_and_collect, bind, _run_claude, bind.
  rewrite await_in_time.
  2:{ intros D HD. cbn in HD |- *. rewrite Hdl, Hn in HD. rewrite Htime, Hn.
      apply (Hd D HD). }
  rewrite He. cbv beta iota.
  rewrite handle_errors_reports by exact Hx.
  cbn [ticks set_time set_fs]. rewrite Hticks. cbn [ticks set_ticks].
  eexists. split; [reflexivity|].
  match goal with
  | |- stored (cleanup ?e' ?o ?p ?W) = _ =>
      destruct (cleanup_same_loop e' o p W) as (_ & _ & _ & _ & _ & Hst4)
  end.
  rewrite Hst4. cbn [stored set_ticks set_time set_fs]. rewrite Hst, Hn. reflexivity.
Qed.

Lemma engine_failure_is_reported_witness :
  exists w',
    execute_task default_config (failing_env (TimeoutError "read timed out"))
      "compute 2+2" "ctx1" (Some "t1") fresh_world
    = (Ret (failure_envelope "Task timed out" 2), w')
    /\ stored w' = [].
Proof.
  apply (engine_failure_is_reported default_config
           (failing_env (TimeoutError "read timed out")) "compute 2+2" "ctx1" (Some "t1")
           fresh_world sample_workspace fresh_world (Some ["/"])
           (set_cwd sample_workspace
              (set_fs (Dir [("tmp", Dir [("claude-workspaces", Dir [("t1", Dir [])])])])
                 (set_ticks 1 fresh_world)))
           (TimeoutError "read timed out")); try reflexivity.
  intros D HD. discriminate.
Defined.

(** ** The envelope *)

(** X6: an envelope that [execute_task] returns is of one of two kinds,
    told apart by its success flag: with success = true it has a result
    that is not null, an artifact list and no error; with success = false
    it has an error, a null result and no artifact list; both carry a
    duration_ms. *)
Theorem envelope_fields_follow_success cfg e task_content context_id task_id w d :
  fst (execute_task cfg e task_content context_id task_id w) = Ret d ->
  exists b,
    get "success" d = Some (JBool b)
    /\ populated "result" d = b
    /\ populated "error" d = negb b
    /\ (if b then exists artifacts, get "artifacts" d = Some (JList artifacts)
        else get "artifacts" d = None /\ get "result" d = Some JNull)
    /\ exists ms, get "duration_ms" d = Some (JInt ms).
Proof.
  unfold execute_task, bind.
  destruct (locate cfg e task_id w) as [[workspace|x] w1]; [|discriminate].
  unfold now. intros Hd. apply try_statement_envelope in Hd.
  destruct Hd as [(text & artifacts & ->)|(m & ->)].
  - exists true. cbn. eauto 10.
  - exists false. cbn. eauto 10.
Qed.

Lemma envelope_fields_follow_success_witness :
  exists b,
    get "success" (failure_envelope "engine crashed" 2) = Some (JBool b)
    /\ populated "result" (failure_envelope "engine crashed" 2) = b
    /\ populated "error" (failure_envelope "engine crashed" 2) = negb b
    /\ (if b then exists artifacts,
                   get "artifacts" (failure_envelope "engine crashed" 2)
                   = Some (JList artifacts)
        else get "artifacts" (failure_envelope "engine crashed" 2) = None
             /\ get "result" (failure_envelope "engine crashed" 2) = Some JNull)
    /\ exists ms, get "duration_ms" (failure_envelope "engine crashed" 2) = Some (JInt ms).
Proof.
  apply (envelope_fields_follow_success default_config
           (failing_env (Exception "engine crashed")) "compute 2+2" "ctx1" (Some "t1")
           fresh_world).
  vm_compute. reflexivity.
Defined.

(** ** The workspace of a call *)

Lemma no_slash_cons c s :
  c <> "/"%char -> no_slash s -> no_slash (String c s).
Proof.
  unfold no_slash. intros Hc Hs. cbn [split_on].
  destruct (Ascii.eqb c "/") eqn:E; [apply Ascii.eqb_eq in E; contradiction|].
  rewrite Hs. reflexivity.
Qed.

Lemma pretty_N_char_no_slash x : pretty_N_char x <> "/"%char.
Proof. unfold pretty_N_char. repeat case_match; discriminate. Qed.

Lemma pretty_N_go_no_slash x : forall s, no_slash s -> no_slash (pretty_N_go x s).
Proof.
  induction (N.lt_wf_0 x) as [x _ IH]. intros s Hs.
  destruct (decide (x = 0%N)) as [->|Hx]; [rewrite pretty_N_go_0; exact Hs|].
  rewrite pretty_N_go_step by lia.
  apply IH; [apply N.div_lt; lia|].
  apply no_slash_cons; [apply pretty_N_char_no_slash|exact Hs].
Qed.

Lemma pretty_Z_no_slash (z : Z) : no_slash (pretty z).
Proof.
  assert (Hp : forall p : positive, no_slash (pretty p)).
  { intros p. unfold pretty, pretty_positive, pretty, pretty_N.
    destruct (decide (N.pos p = 0%N)); [discriminate|].
    apply pretty_N_go_no_slash. reflexivity. }
  destruct z as [|p|p]; unfold pretty, pretty_Z.
  - reflexivity.
  - apply Hp.
  - apply no_slash_cons; [discriminate|apply Hp].
Qed.

(** a generated identifier is one path component *)
Lemma Path_gen_task_id t : Path (gen_task_id t) = [gen_task_id t].
Proof.
  assert (Hns : no_slash (gen_task_id t)).
  { unfold gen_task_id. cbn [String.app].
    repeat (apply no_slash_cons; [discriminate|]). apply pretty_Z_no_slash. }
  unfold Path. rewrite Hns. reflexivity.
Qed.

(** X7: without a taskId, or with the empty string as taskId, the call
    reads the clock once and, for an absolute WORKSPACE_BASE without "..",
    its workspace is the directory named cc-<milliseconds> directly below
    the base, written from the root "/": a generated identifier is always
    one plain path component.  (A base with a NUL byte, which no
    environment can hold, makes [resolve] raise ValueError.) *)
Theorem generated_workspace_is_below_the_base cfg e task_id w :
  task_id = None \/ task_id = Some "" ->
  is_absolute (Path (WORKSPACE_BASE cfg)) = true ->
  (forall c, c ∈ Path (WORKSPACE_BASE cfg) -> c <> "..") ->
  locate cfg e task_id w
  = (if existsb has_nul (Path (WORKSPACE_BASE cfg))
     then Raise (Exception "embedded null byte")
     else Ret ("/" :: comps (Path (WORKSPACE_BASE cfg))
                 ++ [gen_task_id (clock e (ticks w))]),
     set_ticks (S (ticks w)) w).
Proof.
  intros Hid Habs Hplain.
  assert (Hgen : task_id_or_new e task_id w
                 = (Ret (gen_task_id (clock e (ticks w))), set_ticks (S (ticks w)) w)).
  { destruct Hid as [->| ->]; reflexivity. }
  unfold locate, bind. rewrite Hgen, Path_gen_task_id.
  unfold joinpath.
  replace (is_absolute [gen_task_id (clock e (ticks w))]) with false by reflexivity.
  unfold resolve. rewrite existsb_app. cbn [existsb].
  rewrite gen_task_id_no_nul, !orb_false_r.
  destruct (existsb has_nul (Path (WORKSPACE_BASE cfg))); [reflexivity|].
  destruct (Path (WORKSPACE_BASE cfg)) as [|r cs]; [discriminate|].
  cbn [is_absolute] in Habs. cbn [app comps]. rewrite Habs. unfold ret.
  rewrite collapse_plain; [reflexivity|].
  intros c Hc. apply elem_of_app in Hc. destruct Hc as [Hc|Hc].
  - apply Hplain. apply list_elem_of_further. exact Hc.
  - apply list_elem_of_singleton in Hc. subst c. discriminate.
Qed.

Lemma generated_workspace_is_below_the_base_witness :
  locate default_config (sample_env 4000 []) (Some "") fresh_world
  = (Ret ["/"; "tmp"; "claude-workspaces"; "cc-1700000000000"], set_ticks 1 fresh_world).
Proof.
  apply (generated_workspace_is_below_the_base default_config (sample_env 4000 [])
           (Some "") fresh_world).
  - right. reflexivity.
  - reflexivity.
  - intros c Hc.
    change (c ∈ ["/"; "tmp"; "claude-workspaces"]) in Hc.
    repeat (apply elem_of_cons in Hc; destruct Hc as [->|Hc]; [discriminate|]).
    apply elem_of_nil in Hc. contradiction.
Defined.

(** X8: a taskId that is an absolute path replaces WORKSPACE_BASE: the
    workspace of the call is that path (from the root "/", with ".."
    collapsed), whatever the base is, and the [finally] block removes
    that directory with everything in it when its rmtree does not fail.
    (With a NUL byte in the taskId [resolve] raises ValueError and
    nothing of this happens.) *)
Theorem absolute_task_id_replaces_the_base cfg e task_content context_id task_id w r cs :
  task_id <> "" ->
  Path task_id = r :: cs ->
  is_root r = true ->
  locate cfg e (Some task_id) w
  = (if existsb has_nul cs then Raise (Exception "embedded null byte")
     else Ret ("/" :: collapse [] cs), w)
  /\ (existsb has_nul cs = false -> rmtree_fault e = None -> collapse [] cs <> [] ->
      exists_path ("/" :: collapse [] cs)
        (fs (snd (execute_task cfg e task_content context_id (Some task_id) w))) = false).
Proof.
  intros Hne Hp Hr.
  assert (Hloc : locate cfg e (Some task_id) w
                 = (if existsb has_nul cs then Raise (Exception "embedded null byte")
                    else Ret ("/" :: collapse [] cs), w)).
  { unfold locate, bind, task_id_or_new, ret.
    apply String.eqb_neq in Hne. rewrite Hne.
    unfold joinpath. rewrite Hp. cbn [is_absolute]. rewrite Hr.
    unfold resolve. cbn [existsb].
    replace (has_nul r) with false
      by (unfold is_root in Hr; apply orb_true_iff in Hr;
          destruct Hr as [Hr|Hr]; apply String.eqb_eq in Hr; subst r; reflexivity).
    cbn [orb]. destruct (existsb has_nul cs); [reflexivity|]. rewrite Hr. reflexivity. }
  split; [exact Hloc|].
  intros Hn Hf Hcs. rewrite Hn in Hloc. unfold execute_task, bind. rewrite Hloc. unfold now.
  apply try_statement_removes; [exact Hf|exact Hcs].
Qed.

Lemma absolute_task_id_replaces_the_base_witness :
  exists_path ["/"; "etc"; "cron.d"] (fs system_world) = true
  /\ locate default_config absolute_id_env (Some "/etc/cron.d") system_world
     = (Ret ["/"; "etc"; "cron.d"], system_world)
  /\ exists_path ["/"; "etc"; "cron.d"]
       (fs (snd (execute_task default_config absolute_id_env "compute 2+2" "ctx1"
                   (Some "/etc/cron.d") system_world))) = false.
Proof.
  destruct (absolute_task_id_replaces_the_base default_config absolute_id_env
              "compute 2+2" "ctx1" "/etc/cron.d" system_world "/" ["etc"; "cron.d"]
              ltac:(discriminate) eq_refl eq_refl) as [H1 H2].
  split; [reflexivity|]. split; [exact H1|].
  apply H2; [reflexivity|reflexivity|discriminate].
Defined.

(** an absolute taskId with a NUL byte is not resolved *)
Lemma absolute_task_id_with_nul_is_refused :
  locate default_config (sample_env 4000 []) (Some ("/etc/" +:+ String "000"%char "x"))
    fresh_world
  = (Raise (Exception "embedded null byte"), fresh_world).
Proof. vm_compute. reflexivity. Qed.

(** ** What the listing holds *)

Lemma rglob_from_below t : forall p item,
  item ∈ rglob_from p t -> exists q, q <> [] /\ fst item = p ++ q.
Proof.
  induction t as [| |es IH] using node_nested_ind; intros p item Hin; simpl in Hin.
  - apply elem_of_nil in Hin. contradiction.
  - apply elem_of_nil in Hin. contradiction.
  - apply elem_of_app in Hin. destruct Hin as [Hin|Hin].
    + apply list_elem_of_fmap in Hin. destruct Hin as [e [-> _]].
      exists [fst e]. split; [discriminate|reflexivity].
    + apply list_elem_of_In, in_flat_map in Hin. destruct Hin as [e [He Hin]].
      apply list_elem_of_In in He, Hin.
      rewrite Forall_forall in IH.
      destruct (IH e He _ _ Hin) as [q [_ Hq]].
      exists (fst e :: q). split; [discriminate|].
      rewrite Hq, <- app_assoc. reflexivity.
Qed.

Lemma list_workspace_files_cases t workspace exclude_hidden p :
  p ∈ list_workspace_files t workspace exclude_hidden <->
  (p, File) ∈ rglob workspace t
  /\ exclude_hidden && hidden p = false
  /\ existsb (String.eqb (name p)) non_artifact_names = false.
Proof.
  unfold list_workspace_files. rewrite list_elem_of_fmap. split.
  - intros [[p' n] [-> Hin]]. apply list_elem_of_In, filter_In in Hin.
    destruct Hin as [Hin Hk]. apply list_elem_of_In in Hin.
    unfold keep_item in Hk. cbn [fst snd] in *.
    destruct n; cbn [is_file] in Hk; try discriminate.
    destruct (exclude_hidden && hidden p'); try discriminate.
    destruct (existsb (String.eqb (name p')) non_artifact_names); [discriminate|auto].
  - intros (Hin & Hh & Hn). exists (p, File). split; [reflexivity|].
    apply list_elem_of_In, filter_In. split; [apply list_elem_of_In; assumption|].
    unfold keep_item. cbn [fst snd is_file]. rewrite Hh, Hn. reflexivity.
Qed.

(** X9: whatever the listing returns lies strictly below the
    workspace -- never the workspace itself, never a path outside of it --
    and is a regular file found there: directories and special files are
    not listed, nor is a file called __pycache__, .pyc or .pyo. *)
Theorem listing_stays_below_the_workspace t workspace exclude_hidden p :
  p ∈ list_workspace_files t workspace exclude_hidden ->
  (exists q, q <> [] /\ p = workspace ++ q)
  /\ (p, File) ∈ rglob workspace t
  /\ name p ∉ non_artifact_names.
Proof.
  intros Hp. apply list_workspace_files_cases in Hp. destruct Hp as (Hin & _ & Hn).
  split; [|split; [exact Hin|]].
  - unfold rglob in Hin.
    destruct (lookup_path (comps workspace) t) as [n|];
      [|apply elem_of_nil in Hin; contradiction].
    destruct (rglob_from_below _ _ _ Hin) as [q [Hq Hpq]]. eauto.
  - intros Hel. apply list_elem_of_In in Hel.
    assert (Hex : existsb (String.eqb (name p)) non_artifact_names = true).
    { apply existsb_exists. exists (name p). split; [exact Hel|apply String.eqb_refl]. }
    congruence.
Qed.

Lemma listing_stays_below_the_workspace_witness :
  (exists q, q <> [] /\ sample_workspace ++ ["helper.pyc"] = sample_workspace ++ q)
  /\ (sample_workspace ++ ["helper.pyc"], File) ∈ rglob sample_workspace python_workspace.
Proof.
  destruct (listing_stays_below_the_workspace python_workspace sample_workspace true
              (sample_workspace ++ ["helper.pyc"])) as (H1 & H2 & _).
  - apply list_elem_of_further, list_elem_of_here.
  - split; assumption.
Defined.

Lemma filter_sublist {A} (f g : A -> bool) (l : list A) :
  (forall x, f x = true -> g x = true) ->
  List.filter f l `sublist_of` List.filter g l.
Proof.
  intros H. induction l as [|a l IH]; cbn [List.filter]; [constructor|].
  destruct (f a) eqn:Hf.
  - rewrite (H a Hf). apply sublist_skip. exact IH.
  - destruct (g a); [apply sublist_cons|]; exact IH.
Qed.

(** X10: the switch exclude_hidden only takes files away, and keeps the
    order: the listing with the switch on is the listing with the switch
    off without the paths that have a part beginning with a dot.  With
    the switch off a file called .pyc or .pyo is still left out, by the
    test on the name. *)
Theorem exclude_hidden_only_removes t workspace :
  list_workspace_files t workspace true `sublist_of` list_workspace_files t workspace false
  /\ (forall p, p ∈ list_workspace_files t workspace true
                <-> p ∈ list_workspace_files t workspace false /\ hidden p = false)
  /\ (forall p, p ∈ list_workspace_files t workspace false
                <-> (p, File) ∈ rglob workspace t /\ name p ∉ non_artifact_names).
Proof.
  split; [|split].
  - unfold list_workspace_files. apply (fmap_sublist fst). apply filter_sublist.
    intros [p n]. unfold keep_item. cbn [fst snd andb].
    destruct (is_file n); [|discriminate].
    destruct (hidden p); [discriminate|]. auto.
  - intros p. rewrite !list_workspace_files_cases. cbn [andb]. tauto.
  - intros p. rewrite list_workspace_files_cases. cbn [andb].
    assert (Hn : existsb (String.eqb (name p)) non_artifact_names = false
                 <-> name p ∉ non_artifact_names).
    { split.
      - intros Hf Hel. apply list_elem_of_In in Hel.
        assert (Hex : existsb (String.eqb (name p)) non_artifact_names = true).
        { apply existsb_exists. exists (name p). split; [exact Hel|apply String.eqb_refl]. }
        congruence.
      - intros Hnot. destruct (existsb _ _) eqn:Hex; [|reflexivity].
        apply existsb_exists in Hex. destruct Hex as [x [Hx Heq]].
        apply String.eqb_eq in Heq. subst x.
        exfalso. apply Hnot. apply list_elem_of_In. exact Hx. }
    tauto.
Qed.

(** ** What the uploads touch *)

(** one upload: the disk stays as it is, and the file handler takes the
    file exactly when the call returns, which it does only for a file
    that is there *)
Lemma upload_effect e filepath url context_id w :
  same_disk w (snd (upload_to_file_handler e filepath url context_id w))
  /\ match fst (upload_to_file_handler e filepath url context_id w) with
     | Ret _ =>
         stored (snd (upload_to_file_handler e filepath url context_id w))
         = stored w ++ [(filepath, context_id)]
         /\ exists_path filepath (fs w) = true
     | Raise _ =>
         stored (snd (upload_to_file_handler e filepath url context_id w)) = stored w
     end.
Proof.
  unfold upload_to_file_handler, same_disk.
  destruct (exists_path filepath (fs w)); [|cbn; auto].
  unfold bind, await.
  destruct (deadline w) as [D|]; [destruct (D <? _)|];
    try (cbn; auto; fail); destruct (upload_reply e filepath); cbn; auto.
Qed.

Lemma upload_each_effect cfg e context_id files : forall artifacts w,
  same_disk w (snd (upload_each cfg e context_id files artifacts w))
  /\ exists l,
       stored (snd (upload_each cfg e context_id files artifacts w)) = stored w ++ l
       /\ (forall f c, (f, c) ∈ l ->
             c = context_id /\ f ∈ files /\ exists_path f (fs w) = true)
       /\ (length l <= length files)%nat
       /\ forall result,
            fst (upload_each cfg e context_id files artifacts w) = Ret result ->
            length result = (length artifacts + length l)%nat.
Proof.
  induction files as [|p files IH]; intros artifacts w.
  - split; [split; reflexivity|]. exists []. cbn. rewrite app_nil_r.
    split; [reflexivity|]. split; [intros f c H; apply elem_of_nil in H; contradiction|].
    split; [lia|]. intros result H. injection H as <-. lia.
  - cbn [upload_each].
    pose proof (upload_effect e p (FILE_HANDLER_URL cfg) context_id w) as [[Hfs Hcwd] Hst].
    destruct (upload_to_file_handler e p (FILE_HANDLER_URL cfg) context_id w) as [[d|x] w1].
    + cbn [fst snd] in *. destruct Hst as [Hst Hex].
      destruct (IH (artifacts ++ [artifact p d]) w1)
        as ([Hfs' Hcwd'] & l & Hl & Hin & Hlen & Hres).
      split; [split; congruence|].
      exists ((p, context_id) :: l).
      split; [rewrite Hl, Hst, <- app_assoc; reflexivity|].
      split; [|split].
      * intros f c H. apply elem_of_cons in H. destruct H as [H|H].
        -- injection H as -> ->.
           split; [reflexivity|]. split; [apply list_elem_of_here|exact Hex].
        -- destruct (Hin f c H) as (Hc & Hf & He).
           split; [exact Hc|]. split; [apply list_elem_of_further; exact Hf|congruence].
      * cbn [length]. lia.
      * intros result H. rewrite (Hres result H), length_app. cbn [length]. lia.
    + cbn [fst snd] in *.
      assert (Hstop : same_disk w w1
                /\ exists l, stored w1 = stored w ++ l
                     /\ (forall f c, (f, c) ∈ l ->
                           c = context_id /\ f ∈ p :: files /\ exists_path f (fs w) = true)
                     /\ (length l <= length (p :: files))%nat
                     /\ forall result : list json,
                          @Raise (list json) x = Ret result ->
                          length result = (length artifacts + length l)%nat).
      { split; [split; assumption|]. exists []. rewrite app_nil_r.
        split; [exact Hst|]. split; [intros f c H; apply elem_of_nil in H; contradiction|].
        split; [cbn; lia|discriminate]. }
      destruct (is_Exception x); [|exact Hstop].
      destruct (IH artifacts w1) as ([Hfs' Hcwd'] & l & Hl & Hin & Hlen & Hres).
      split; [split; congruence|].
      exists l. split; [rewrite Hl, Hst; reflexivity|].
      split; [|split].
      * intros f c H. destruct (Hin f c H) as (Hc & Hf & He).
        split; [exact Hc|]. split; [apply list_elem_of_further; exact Hf|congruence].
      * cbn [length]. lia.
      * exact Hres.
Qed.

(** X11: whatever the file handler and the deadline do, the upload step
    leaves the file system and the working directory alone, hands over
    only files of the listing that are there, each with the contextId of
    the call, and, when it returns, returns one record for every file
    that was taken -- never more records than listed files. *)
Theorem uploads_touch_only_listed_files cfg e workspace context_id w :
  same_disk w (snd (_upload_artifacts cfg e workspace context_id w))
  /\ exists l,
       stored (snd (_upload_artifacts cfg e workspace context_id w)) = stored w ++ l
       /\ (forall f c, (f, c) ∈ l ->
             c = context_id
             /\ f ∈ list_workspace_files (fs w) workspace true
             /\ exists_path f (fs w) = true)
       /\ forall artifacts,
            fst (_upload_artifacts cfg e workspace context_id w) = Ret artifacts ->
            length artifacts = length l
            /\ (length artifacts <= length (list_workspace_files (fs w) workspace true))%nat.
Proof.
  unfold _upload_artifacts.
  destruct (negb (exists_path workspace (fs w))).
  - split; [split; reflexivity|]. exists []. cbn. rewrite app_nil_r.
    split; [reflexivity|]. split; [intros f c H; apply elem_of_nil in H; contradiction|].
    intros artifacts H. injection H as <-. cbn. lia.
  - destruct (upload_each_effect cfg e context_id
                (list_workspace_files (fs w) workspace true) [] w)
      as (Hd & l & Hl & Hin & Hlen & Hres).
    split; [exact Hd|]. exists l. split; [exact Hl|]. split; [exact Hin|].
    intros artifacts H. specialize (Hres artifacts H). cbn [length] in Hres. lia.
Qed.

(** ** A request from admission to its answer *)



(** with a timeout of zero seconds the request of the witness is
    answered with the timeout envelope; no workspace is made and nothing
    is handed over *)
Lemma zero_timeout_runs_nothing :
  exists w',
    handle_execute zero_config
      (sample_env 4000 [["tmp"; "claude-workspaces"; "t1"; "report.csv"]])
      sample_request fresh_world
    = Some (Ret (json_response
                   [("success", JBool false); ("error", JStr "Task timed out after 0s")]
                   200), w')
    /\ fs w' = fs fresh_world /\ stored w' = [] /\ ticks w' = 0%nat.
Proof. eexists. vm_compute. repeat split. Qed.

(** ** The working directory of a call without company *)

Lemma setup_workspace_saves_cwd e workspace w original_cwd w2 :
  setup_workspace e workspace w = (Ret tt, original_cwd, w2) ->
  original_cwd = Some (cwd w) /\ cwd w2 = workspace.
Proof.
  unfold setup_workspace, mkdir, getcwd, chdir.
  destruct (mkdir_fault e); [discriminate|].
  destruct (mkdir_p (comps workspace) (fs w)) as [t|]; [|discriminate].
  destruct (cwd_gone (set_fs t w)); [discriminate|].
  destruct (lookup_path (comps workspace) (fs (set_fs t w))) as [[| |es]|];
    try destruct (no_entry e workspace); cbn; try discriminate.
  intros H. injection H as <- <-. split; reflexivity.
Qed.

Lemma upload_artifacts_disk cfg e workspace context_id w :
  same_disk w (snd (_upload_artifacts cfg e workspace context_id w)).
Proof.
  unfold _upload_artifacts.
  destruct (negb (exists_path workspace (fs w))); [split; reflexivity|].
  apply upload_each_effect.
Qed.

Lemma run_and_collect_fs cfg e task_content context_id workspace start_time w :
  fs (snd (run_and_collect cfg e task_content context_id workspace start_time w))
  = engine_fs e (fs w).
Proof.
  unfold run_and_collect, bind.
  assert (Hc : fs (snd (_run_claude cfg e task_content workspace w)) = engine_fs e (fs w)).
  { unfold _run_claude, bind, await. cbn [deadline set_fs].
    destruct (deadline w) as [D|]; [destruct (D <? _)|]; reflexivity. }
  destruct (_run_claude cfg e task_content workspace w) as [[text|x] w1]; cbn [snd] in *;
    [|exact Hc].
  pose proof (upload_artifacts_disk cfg e workspace context_id w1) as [Hu _].
  destruct (_upload_artifacts cfg e workspace context_id w1) as [[artifacts|x] w2];
    cbn [snd] in *; [|congruence].
  cbn. congruence.
Qed.

Lemma run_and_collect_cwd cfg e task_content context_id workspace start_time w :
  cwd (snd (run_and_collect cfg e task_content context_id workspace start_time w)) = cwd w.
Proof.
  unfold run_and_collect, bind.
  assert (Hc : cwd (snd (_run_claude cfg e task_content workspace w)) = cwd w).
  { unfold _run_claude, bind, await. cbn [deadline set_fs].
    destruct (deadline w) as [D|]; [destruct (D <? _)|]; reflexivity. }
  destruct (_run_claude cfg e task_content workspace w) as [[text|x] w1]; cbn [snd] in *;
    [|exact Hc].
  pose proof (upload_artifacts_disk cfg e workspace context_id w1) as [_ Hu].
  destruct (_upload_artifacts cfg e workspace context_id w1) as [[artifacts|x] w2];
    cbn [snd] in *; [|congruence].
  cbn. congruence.
Qed.

Lemma handle_errors_fs e start_time r w :
  fs (snd (handle_errors e start_time r w)) = fs w
  /\ cwd (snd (handle_errors e start_time r w)) = cwd w.
Proof. destruct r as [d|[m| |m]]; split; reflexivity. Qed.

(** the way back: into the directory the call came from when it is
    there and the process may enter it *)
Lemma cleanup_restores e p workspace w :
  is_dir_at p (fs w) = true ->
  cwd (cleanup e (Some p) workspace w) = if no_entry e p then cwd w else p.
Proof.
  intros Hd. unfold cleanup, swallow.
  assert (Hc : cwd (snd (chdir e p w)) = if no_entry e p then cwd w else p).
  { unfold chdir. unfold is_dir_at in Hd.
    destruct (lookup_path (comps p) (fs w)) as [[| |es]|]; try discriminate.
    destruct (no_entry e p); reflexivity. }
  destruct (exists_path workspace (fs (snd (chdir e p w)))); [|exact Hc].
  rewrite rmtree_cwd. exact Hc.
Qed.

(** X14: a call that runs alone puts the process back into the
    directory it was in: when the head of the [try] block went through
    and that directory is still there after the engine's run, the working
    directory after the call is the one before it, however the call ends
    -- with success, a failure of the engine or a cancellation.  The one
    exception is a directory that the process may not enter again: then
    it stays in the workspace, which the call removes. *)
Theorem a_lone_call_restores_the_working_directory cfg e task_content context_id task_id w
    workspace w1 original_cwd w2 :
  locate cfg e task_id w = (Ret workspace, w1) ->
  setup_workspace e workspace (set_ticks (S (ticks w1)) w1) = (Ret tt, original_cwd, w2) ->
  is_dir_at (cwd w) (engine_fs e (fs w2)) = true ->
  cwd (snd (execute_task cfg e task_content context_id task_id w))
  = if no_entry e (cwd w) then workspace else cwd w.
Proof.
  intros Hloc Hs Hdir.
  destruct (locate_world cfg e task_id w) as [n Hn]. rewrite Hloc in Hn. cbn [snd] in Hn.
  pose proof (setup_workspace_saves_cwd _ _ _ _ _ Hs) as [Hoc Hin].
  rewrite Hn in Hoc. cbn [cwd set_ticks] in Hoc. subst original_cwd.
  unfold execute_task, bind. rewrite Hloc. unfold now, try_statement, resume.
  rewrite Hs.
  pose proof (run_and_collect_fs cfg e task_content context_id workspace
                (clock e (ticks w1)) w2) as Hfs.
  pose proof (run_and_collect_cwd cfg e task_content context_id workspace
                (clock e (ticks w1)) w2) as Hcw.
  destruct (run_and_collect cfg e task_content context_id workspace (clock e (ticks w1)) w2)
    as [r1 w3]. cbn [snd] in Hfs, Hcw.
  pose proof (handle_errors_fs e (clock e (ticks w1)) r1 w3) as [Hfs' Hcw'].
  destruct (handle_errors e (clock e (ticks w1)) r1 w3) as [r2 w4]. cbn [snd] in *.
  rewrite cleanup_restores by (rewrite Hfs', Hfs; exact Hdir).
  rewrite Hcw', Hcw, Hin. reflexivity.
Qed.

Lemma a_lone_call_restores_the_working_directory_witness :
  cwd (snd (execute_task default_config (failing_env (Exception "engine crashed"))
              "compute 2+2" "ctx1" (Some "t1") fresh_world)) = ["/"].
Proof.
  apply (a_lone_call_restores_the_working_directory default_config
           (failing_env (Exception "engine crashed")) "compute 2+2" "ctx1" (Some "t1")
           fresh_world sample_workspace fresh_world (Some ["/"])
           (set_cwd sample_workspace
              (set_fs (Dir [("tmp", Dir [("claude-workspaces", Dir [("t1", Dir [])])])])
                 (set_ticks 1 fresh_world)))); reflexivity.
Defined.

(** a process that was started in /srv/executor and may not enter it
    again ends in its workspace, which is removed *)
Lemma closed_directory_is_not_reentered :
  let w := snd (execute_task default_config (barred_env "/srv/executor") "compute 2+2"
                  "ctx1" (Some "t1") service_world) in
  cwd w = sample_workspace /\ exists_path sample_workspace (fs w) = false.
Proof. vm_compute. split; reflexivity. Qed.

(** ** The stream in two parts *)

(** X15: the result of a stream in two parts is the last text of the
    second part when that part has one, and the result of the first part
    otherwise: messages without a text -- tool uses, messages without
    content -- leave the result as it is. *)
Theorem later_part_supersedes msgs1 msgs2 :
  consume (msgs1 ++ msgs2) = default (consume msgs1) (last (texts msgs2)).
Proof.
  unfold consume. rewrite fold_left_app. apply see_messages.
Qed.

(** ** The head of the [try] block *)

Lemma find_entry_app_new c n es :
  find_entry c es = None -> find_entry c (es ++ [(c, n)]) = Some n.
Proof.
  induction es as [|[c' n'] es IH]; cbn [app find_entry].
  - rewrite String.eqb_refl. reflexivity.
  - destruct (String.eqb c c'); [discriminate|exact IH].
Qed.

(** where mkdir went through there is a directory *)
Lemma mkdir_p_makes_dir cs : forall t t',
  mkdir_p cs t = Some t' -> exists es, lookup_path cs t' = Some (Dir es).
Proof.
  induction cs as [|c cs IH]; intros t t' H; cbn [mkdir_p] in H.
  - destruct t as [| |es]; try discriminate. injection H as <-. eexists. reflexivity.
  - destruct t as [| |es]; try discriminate.
    destruct (find_entry c es) as [n|] eqn:Hf.
    + destruct (mkdir_p cs n) as [n'|] eqn:Hm; [|discriminate]. injection H as <-.
      cbn [lookup_path]. rewrite find_entry_update, Hf. cbn [option_map].
      eapply IH. exact Hm.
    + destruct (mkdir_p cs (Dir [])) as [n'|] eqn:Hm; [|discriminate]. injection H as <-.
      cbn [lookup_path]. rewrite (find_entry_app_new c n' es Hf).
      eapply IH. exact Hm.
Qed.

(** X16: the head of the [try] block either puts the process into the
    workspace -- which then is a directory, with the directory the process
    was in saved for the way back -- or fails and leaves the process where
    it was.  It fails in mkdir, in getcwd when the working directory of
    the process is gone (in both cases original_cwd stays unbound), or in
    chdir with original_cwd bound; chdir fails only for a workspace that
    the process may not enter: after mkdir the directory is there (the
    three calls follow each other without an await). *)
Theorem setup_enters_the_workspace_or_stays e workspace w :
  match setup_workspace e workspace w with
  | (Ret _, original_cwd, w') =>
      cwd w' = workspace /\ is_dir_at workspace (fs w') = true
      /\ original_cwd = Some (cwd w) /\ no_entry e workspace = false
  | (Raise x, original_cwd, w') =>
      cwd w' = cwd w
      /\ ((fst (mkdir e workspace w) = Raise x /\ original_cwd = None)
          \/ (x = Exception "[Errno 2] No such file or directory" /\ original_cwd = None)
          \/ (x = Exception ("[Errno 13] Permission denied: '"
                             +:+ str_path workspace +:+ "'")
              /\ original_cwd = Some (cwd w) /\ no_entry e workspace = true
              /\ is_dir_at workspace (fs w') = true))
  end.
Proof.
  unfold setup_workspace, mkdir.
  destruct (mkdir_fault e) as [m|]; [cbn; auto|].
  destruct (mkdir_p (comps workspace) (fs w)) as [t|] eqn:Hm; [|cbn; auto].
  destruct (mkdir_p_makes_dir _ _ _ Hm) as [es Hes].
  unfold getcwd.
  destruct (cwd_gone (set_fs t w)); [cbn; auto|].
  unfold chdir. cbn [fs set_fs]. rewrite Hes.
  destruct (no_entry e workspace); cbn [cwd fs set_cwd set_fs];
    unfold is_dir_at; cbn [fs set_fs]; rewrite Hes; auto 10.
Qed.

(** a workspace that is there already and that the process may not
    enter: mkdir and getcwd go through, chdir fails with original_cwd
    bound *)
Lemma barred_workspace_fails_in_chdir :
  setup_workspace (barred_env "/tmp/claude-workspaces/t1") sample_workspace
    (set_fs (Dir [("tmp", Dir [("claude-workspaces", Dir [("t1", Dir [])])])]) fresh_world)
  = (Raise (Exception "[Errno 13] Permission denied: '/tmp/claude-workspaces/t1'"),
     Some ["/"],
     set_fs (Dir [("tmp", Dir [("claude-workspaces", Dir [("t1", Dir [])])])]) fresh_world).
Proof. vm_compute. reflexivity. Qed.

(** ** After the answer *)

(** X17: when the handler comes back from an admitted request whose
    workspace path was resolved -- with the envelope of [execute_task],
    with the timeout envelope or with a cancellation -- and the timeout is
    positive, the workspace of the request does not exist (provided
    rmtree did not fail).  With a timeout that is not positive
    [execute_task] does not run and the file system is as the request
    found it.  In both cases the deadline that [wait_for] had armed is
    gone: the next request starts from the deadline state this one
    found. *)
Theorem nothing_is_left_after_the_answer cfg e req data w w1 workspace w2 r w' :
  body req = Some data ->
  well_formed req = true ->
  acquire w = Some w1 ->
  locate cfg e (taskId data) (armed cfg w1) = (Ret workspace, w2) ->
  rmtree_fault e = None ->
  comps workspace <> [] ->
  handle_execute cfg e req w = Some (r, w') ->
  (if TASK_TIMEOUT_SECONDS cfg <=? 0 then fs w' = fs w
   else exists_path workspace (fs w') = false)
  /\ deadline w' = deadline w /\ expired w' = expired w.
Proof.
  intros Hb Hwf Hacq Hloc Hf Hne.
  unfold well_formed in Hwf. unfold handle_execute. rewrite Hb in *.
  destruct (falsy (task data)); [discriminate|].
  destruct (falsy (contextId data)); [discriminate|].
  unfold async_with_semaphore. rewrite Hacq.
  assert (Hw1 : deadline w1 = deadline w /\ expired w1 = expired w /\ fs w1 = fs w).
  { unfold acquire in Hacq. destruct (sem w) as [|n]; [discriminate|].
    injection Hacq as <-. repeat split; reflexivity. }
  destruct Hw1 as (Hd1 & Hx1 & Hfs1).
  unfold serve, wait_for.
  destruct (TASK_TIMEOUT_SECONDS cfg <=? 0).
  { intros H; injection H as _ <-; cbn; auto. }
  fold (armed cfg w1).
  assert (Hrm : exists_path workspace
                  (fs (snd (execute_task cfg e (text_of (task data))
                              (text_of (contextId data)) (taskId data) (armed cfg w1))))
                = false).
  { unfold execute_task, bind. rewrite Hloc. unfold now.
    apply try_statement_removes; assumption. }
  destruct (execute_task cfg e (text_of (task data)) (text_of (contextId data))
              (taskId data) (armed cfg w1)) as [r1 w3]. cbn [snd] in Hrm.
  destruct r1 as [d|[m| |m]]; [| |destruct (expired w3)|];
    intros H; injection H as _ <-; cbn; auto.
Qed.

Lemma nothing_is_left_after_the_answer_witness :
  exists r w',
    handle_execute default_config (sample_env 400000 []) sample_request fresh_world
    = Some (r, w')
    /\ exists_path sample_workspace (fs w') = false
    /\ deadline w' = None /\ expired w' = false.
Proof.
  eexists _, _. split; [vm_compute; reflexivity|].
  apply (nothing_is_left_after_the_answer default_config (sample_env 400000 [])
           sample_request
           {| task := Some "compute 2+2"; contextId := Some "ctx1"; taskId := Some "t1" |}
           fresh_world (set_sem 4 fresh_world) sample_workspace
           (armed default_config (set_sem 4 fresh_world))
           (Ret (json_response (timeout_envelope default_config) 200)));
    try reflexivity; discriminate.
Defined.
